(** * codex-transcript-viewer: the event extractor and the renderer dispatch

    A shallow embedding of [parser.py], [formatting.py], [markdown.py] and
    [html_builder.py].  JSON values are the Python objects [json.loads]
    builds; Python exceptions are explicit results; the standard-library
    functions the code calls ([datetime.fromisoformat], [json.loads],
    [json.dumps], [re.sub], [repr]) are fields of one interface record.
    A str is a Rocq [string]: lengths and slices count its bytes, which are
    the characters of the str when it is ASCII.  The reading of the log file
    and the assembly of the page around the fragments are left out. *)

From Stdlib Require Import ZArith List Bool Lia.
From Stdlib Require Lists.Finite Sorting.Sorted.
From Stdlib Require Import Strings.String Strings.Ascii.
From Stdlib Require Import Numbers.DecimalString Numbers.DecimalNat.
From Stdlib Require Import Floats.PrimFloat.
Import ListNotations.

Open Scope string_scope.
Open Scope list_scope.

Set Warnings "-register-all".

(** ** Python values and exceptions *)

(** What [json.loads] can return.  An int is unbounded, a float is a binary64
    (NaN and the infinities included, as [json.loads] accepts them), [bool]
    compares as the ints 0 and 1.  A dict is kept as the list of its items in
    insertion order, one item per key as [json.loads] leaves them; a lookup
    takes the first item with the key. *)
Inductive json : Type :=
| JNull
| JBool (b : bool)
| JInt (z : Z)
| JFloat (f : float)
| JStr (s : string)
| JList (l : list json)
| JDict (d : list (string * json)).

Definition dict : Type := list (string * json).

Inductive exn : Type :=
| AttributeError
| TypeError
| KeyError
| ValueError
| JSONDecodeError.

Inductive result (A : Type) : Type :=
| Ok (a : A)
| Raise (e : exn).

Arguments Ok {A} a.
Arguments Raise {A} e.

Definition bind {A B : Type} (m : result A) (k : A -> result B) : result B :=
  match m with
  | Ok a => k a
  | Raise e => Raise e
  end.

Notation "x <- m ;; k" := (bind m (fun x => k))
  (at level 61, m at next level, right associativity).
Notation "' pat <- m ;; k" := (bind m (fun x => match x with pat => k end))
  (at level 61, pat pattern, m at next level, right associativity).

(** ** Dict and object primitives *)

Fixpoint lookup (k : string) (d : dict) : option json :=
  match d with
  | [] => None
  | (k', v) :: rest => if String.eqb k k' then Some v else lookup k rest
  end.

(** [d.get(k, default)] on a dict. *)
Definition dict_get (d : dict) (k : string) (default : json) : json :=
  match lookup k d with
  | Some v => v
  | None => default
  end.

(** [o.get(k, default)] on any value: only dicts have the attribute. *)
Definition py_get (o : json) (k : string) (default : json) : result json :=
  match o with
  | JDict d => Ok (dict_get d k default)
  | _ => Raise AttributeError
  end.

(** [o[k]] with a string key. *)
Definition py_item (o : json) (k : string) : result json :=
  match o with
  | JDict d =>
      match lookup k d with
      | Some v => Ok v
      | None => Raise KeyError
      end
  | _ => Raise TypeError
  end.

(** [o.values()]. *)
Definition py_values (o : json) : result (list json) :=
  match o with
  | JDict d => Ok (map snd d)
  | _ => Raise AttributeError
  end.

(** Truth value of an object, as [if o], [o or x] and [o and x] test it. *)
Definition truthy (o : json) : bool :=
  match o with
  | JNull => false
  | JBool b => b
  | JInt z => negb (Z.eqb z 0)
  | JFloat f => negb (PrimFloat.eqb f PrimFloat.zero)
  | JStr s => negb (String.eqb s "")
  | JList l => match l with [] => false | _ => true end
  | JDict d => match d with [] => false | _ => true end
  end.

Definition py_or (a b : json) : json := if truthy a then a else b.

(** [a == "literal"]: never raises, true only for that very string. *)
Definition eq_str (a : json) (s : string) : bool :=
  match a with
  | JStr t => String.eqb t s
  | _ => false
  end.

(** [v > 0] and [v <= 0]: numbers (bool is an int) compare, anything else
    raises TypeError. *)
Definition py_gt0 (v : json) : result bool :=
  match v with
  | JBool b => Ok b
  | JInt z => Ok (Z.ltb 0 z)
  | JFloat f => Ok (PrimFloat.ltb PrimFloat.zero f)
  | _ => Raise TypeError
  end.

Definition py_le0 (v : json) : result bool :=
  match v with
  | JBool b => Ok (negb b)
  | JInt z => Ok (Z.leb z 0)
  | JFloat f => Ok (PrimFloat.leb f PrimFloat.zero)
  | _ => Raise TypeError
  end.

(** [any(v > 0 for v in vs)]: left to right, stops at the first true. *)
Fixpoint any_gt0 (vs : list json) : result bool :=
  match vs with
  | [] => Ok false
  | v :: rest =>
      b <- py_gt0 v ;;
      if b then Ok true else any_gt0 rest
  end.

(** [for x in o]: the items a for-loop visits.  A str yields its characters,
    a dict its keys; None and numbers are not iterable. *)
Fixpoint chars (s : string) : list json :=
  match s with
  | EmptyString => []
  | String c rest => JStr (String c EmptyString) :: chars rest
  end.

Definition py_iter (o : json) : result (list json) :=
  match o with
  | JList l => Ok l
  | JStr s => Ok (chars s)
  | JDict d => Ok (map (fun kv => JStr (fst kv)) d)
  | _ => Raise TypeError
  end.

(** ** parser.py *)

Module Parser.

Definition event (fields : dict) : json := JDict fields.

Definition _handle_event_msg (payload ts : json) (events : list json)
  : result (list json) :=
  msg_type <- py_get payload "type" (JStr "") ;;
  if eq_str msg_type "user_message" then
    text <- py_get payload "message" (JStr "") ;;
    images <- py_get payload "local_images" (JList []) ;;
    Ok (events ++ [event [("type", JStr "user_message"); ("ts", ts);
                          ("text", text); ("images", images)]])
  else if eq_str msg_type "agent_message" then
    text <- py_get payload "message" (JStr "") ;;
    Ok (events ++ [event [("type", JStr "agent_commentary"); ("ts", ts);
                          ("text", text)]])
  else if eq_str msg_type "agent_reasoning" then
    text <- py_get payload "text" (JStr "") ;;
    Ok (events ++ [event [("type", JStr "reasoning"); ("ts", ts);
                          ("text", text)]])
  else if eq_str msg_type "task_complete" then
    text <- py_get payload "last_agent_message" (JStr "") ;;
    turn_id <- py_get payload "turn_id" (JStr "") ;;
    Ok (events ++ [event [("type", JStr "task_complete"); ("ts", ts);
                          ("text", text); ("turn_id", turn_id)]])
  else if eq_str msg_type "task_started" then
    turn_id <- py_get payload "turn_id" (JStr "") ;;
    window <- py_get payload "model_context_window" (JStr "") ;;
    Ok (events ++ [event [("type", JStr "task_started"); ("ts", ts);
                          ("turn_id", turn_id);
                          ("model_context_window", window)]])
  else if eq_str msg_type "turn_aborted" then
    reason <- py_get payload "reason" (JStr "") ;;
    Ok (events ++ [event [("type", JStr "turn_aborted"); ("ts", ts);
                          ("reason", reason)]])
  else if eq_str msg_type "token_count" then
    info0 <- py_get payload "info" JNull ;;
    let info := py_or info0 (JDict []) in
    total <- py_get info "total_token_usage" (JDict []) ;;
    if truthy total then
      vs <- py_values total ;;
      positive <- any_gt0 vs ;;
      if positive then
        Ok (events ++ [event [("type", JStr "token_count"); ("ts", ts);
                              ("total", total)]])
      else Ok events
    else Ok events
  else if eq_str msg_type "thread_rolled_back" then
    num_turns <- py_get payload "num_turns" (JInt 0) ;;
    Ok (events ++ [event [("type", JStr "thread_rolled_back"); ("ts", ts);
                          ("num_turns", num_turns)]])
  else Ok events.

(** The body of [for block in content: if block.get("type") == tag: ...]. *)
Fixpoint collect_blocks (tag : string) (mk : json -> json)
    (blocks events : list json) : result (list json) :=
  match blocks with
  | [] => Ok events
  | block :: rest =>
      btype <- py_get block "type" JNull ;;
      if eq_str btype tag then
        text <- py_get block "text" (JStr "") ;;
        collect_blocks tag mk rest (events ++ [mk text])
      else collect_blocks tag mk rest events
  end.

Definition _handle_response_item (payload ts : json) (events : list json)
  : result (list json) :=
  item_type <- py_get payload "type" (JStr "") ;;
  role <- py_get payload "role" (JStr "") ;;
  if eq_str item_type "function_call" then
    name <- py_get payload "name" (JStr "") ;;
    arguments <- py_get payload "arguments" (JStr "") ;;
    call_id <- py_get payload "call_id" (JStr "") ;;
    Ok (events ++ [event [("type", JStr "tool_call"); ("ts", ts);
                          ("name", name); ("arguments", arguments);
                          ("call_id", call_id)]])
  else if eq_str item_type "function_call_output" then
    call_id <- py_get payload "call_id" (JStr "") ;;
    output <- py_get payload "output" (JStr "") ;;
    Ok (events ++ [event [("type", JStr "tool_output"); ("ts", ts);
                          ("call_id", call_id); ("output", output)]])
  else if eq_str item_type "message" && eq_str role "assistant" then
    content <- py_get payload "content" (JList []) ;;
    phase <- py_get payload "phase" (JStr "") ;;
    blocks <- py_iter content ;;
    collect_blocks "output_text"
      (fun text => event [("type", JStr "assistant_text"); ("ts", ts);
                          ("text", text); ("phase", phase)])
      blocks events
  else if eq_str item_type "reasoning" then
    summary <- py_get payload "summary" (JList []) ;;
    blocks <- py_iter summary ;;
    collect_blocks "summary_text"
      (fun text => event [("type", JStr "reasoning"); ("ts", ts);
                          ("text", text)])
      blocks events
  else Ok events.

(** The loop of [extract_conversation], from a given [meta] and [events]. *)
Fixpoint extract_loop (entries : list json) (meta : option json)
    (events : list json) : result (option json * list json) :=
  match entries with
  | [] => Ok (meta, events)
  | entry :: rest =>
      ts <- py_get entry "timestamp" (JStr "") ;;
      etype <- py_get entry "type" (JStr "") ;;
      payload <- py_get entry "payload" (JDict []) ;;
      if eq_str etype "session_meta" then
        extract_loop rest (Some payload) events
      else if eq_str etype "event_msg" then
        events' <- _handle_event_msg payload ts events ;;
        extract_loop rest meta events'
      else if eq_str etype "response_item" then
        events' <- _handle_response_item payload ts events ;;
        extract_loop rest meta events'
      else extract_loop rest meta events
  end.

Definition extract_conversation (entries : list json)
  : result (option json * list json) :=
  extract_loop entries None [].

End Parser.

(** ** Strings *)

Definition dq : ascii := ascii_of_nat 34.
Definition nl : ascii := ascii_of_nat 10.

(** Templates are written with a single quote where the source has a double
    quote; [qq] puts the double quotes back. *)
Fixpoint qq (s : string) : string :=
  match s with
  | EmptyString => EmptyString
  | String c rest =>
      String (if Ascii.eqb c "'"%char then dq else c) (qq rest)
  end.

(** [s.replace(c, r)] for a one-character [c]. *)
Fixpoint replace_char (c : ascii) (r : string) (s : string) : string :=
  match s with
  | EmptyString => EmptyString
  | String a rest =>
      if Ascii.eqb a c then r ++ replace_char c r rest
      else String a (replace_char c r rest)
  end.

(** [html.escape(s)] with its default [quote=True]. *)
Definition escape_char (a : ascii) : string :=
  if Ascii.eqb a "&"%char then "&amp;"
  else if Ascii.eqb a "<"%char then "&lt;"
  else if Ascii.eqb a ">"%char then "&gt;"
  else if Ascii.eqb a dq then "&quot;"
  else if Ascii.eqb a "'"%char then "&#x27;"
  else String a EmptyString.

Fixpoint html_escape (s : string) : string :=
  match s with
  | EmptyString => EmptyString
  | String a rest => escape_char a ++ html_escape rest
  end.

(** [needle in s]. *)
Fixpoint contains (needle s : string) : bool :=
  String.prefix needle s ||
  match s with
  | EmptyString => false
  | String _ rest => contains needle rest
  end.

Definition str_of_nat (n : nat) : string :=
  NilEmpty.string_of_uint (Nat.to_uint n).

Definition str_of_Z (z : Z) : string :=
  NilEmpty.string_of_int (Z.to_int z).

(** Thousands separators, on the digits from the least significant one. *)
Fixpoint group3 (digits : list ascii) (k : nat) : list ascii :=
  match digits with
  | [] => []
  | c :: rest =>
      match rest with
      | [] => [c]
      | _ :: _ =>
          if Nat.eqb k 2 then c :: ","%char :: group3 rest 0
          else c :: group3 rest (S k)
      end
  end.

Definition with_commas (digits : string) : string :=
  string_of_list_ascii
    (rev (group3 (rev (list_ascii_of_string digits)) 0)).

(** [format(z, ",")] for an int. *)
Definition comma_of_Z (z : Z) : string :=
  if Z.ltb z 0 then "-" ++ with_commas (str_of_Z (Z.abs z))
  else with_commas (str_of_Z z).

(** ** The standard library the code calls *)

Inductive repl : Type :=
| ReplTemplate (template : string)
| ReplFun (f : (nat -> option string) -> string).

Inductive re_flags : Type := NOFLAG | DOTALL | MULTILINE.

Record PyLib : Type := {
  datetime : Type;
  (** [datetime.fromisoformat] on a str; [None] is its ValueError. *)
  fromisoformat : string -> option datetime;
  strftime : datetime -> string -> string;
  (** [json.loads] on a str; [None] is its JSONDecodeError. *)
  json_loads : string -> option json;
  (** [json.dumps(v, indent=...)]. *)
  json_dumps : json -> option nat -> string;
  (** [re.sub(pattern, repl, s, flags=...)]. *)
  re_sub : string -> repl -> re_flags -> string -> string;
  (** [repr] of a float, a list or a dict. *)
  py_repr : json -> string;
  (** [format(f, spec)] for a float. *)
  float_format : float -> string -> string;
  (** What [d[:n]] raises on a dict: TypeError (a slice is unhashable) up to
      Python 3.11, KeyError from 3.12. *)
  dict_slice_error : exn
}.

(** [str(v)], also what an f-string field with no format spec inserts. *)
Definition py_str (lib : PyLib) (v : json) : string :=
  match v with
  | JStr s => s
  | JInt z => str_of_Z z
  | JBool b => if b then "True" else "False"
  | JNull => "None"
  | _ => py_repr lib v
  end.

(** [f"{v:,}"]. *)
Definition format_comma (lib : PyLib) (v : json) : result string :=
  match v with
  | JInt z => Ok (comma_of_Z z)
  | JBool b => Ok (if b then "1" else "0")
  | JFloat f => Ok (float_format lib f ",")
  | JStr _ => Raise ValueError
  | _ => Raise TypeError
  end.

(** [len(v)]. *)
Definition py_len (v : json) : result nat :=
  match v with
  | JStr s => Ok (String.length s)
  | JList l => Ok (List.length l)
  | JDict d => Ok (List.length d)
  | _ => Raise TypeError
  end.

(** [v[:n]]. *)
Definition py_slice (lib : PyLib) (v : json) (n : nat) : result json :=
  match v with
  | JStr s => Ok (JStr (substring 0 n s))
  | JList l => Ok (JList (firstn n l))
  | JDict _ => Raise (dict_slice_error lib)
  | _ => Raise TypeError
  end.

(** [v.replace(c, r)]: a method of str only. *)
Definition py_replace (v : json) (c : ascii) (r : string) : result json :=
  match v with
  | JStr s => Ok (JStr (replace_char c r s))
  | _ => Raise AttributeError
  end.

(** [try: body except (..): handler], the handler run on the caught
    exceptions only. *)
Definition try_except {A : Type} (body : result A) (caught : exn -> bool)
    (handler : result A) : result A :=
  match body with
  | Ok a => Ok a
  | Raise e => if caught e then handler else Raise e
  end.

(** ** formatting.py *)

Module Formatting.
Section WithLib.
Variable lib : PyLib.

Definition value_or_type_error (e : exn) : bool :=
  match e with
  | ValueError | JSONDecodeError | TypeError => true
  | _ => false
  end.

Definition parse_iso (ts_str : json) : result (datetime lib) :=
  s <- py_replace ts_str "Z"%char "+00:00" ;;
  match s with
  | JStr s' =>
      match fromisoformat lib s' with
      | Some dt => Ok dt
      | None => Raise ValueError
      end
  | _ => Raise TypeError
  end.

Definition format_ts (ts_str : json) : result string :=
  try_except
    (dt <- parse_iso ts_str ;;
     Ok (strftime lib dt "%H:%M:%S"))
    value_or_type_error
    (if truthy ts_str then
       v <- py_slice lib ts_str 19 ;; Ok (py_str lib v)
     else Ok "").

Definition format_ts_full (ts_str : json) : result string :=
  try_except
    (dt <- parse_iso ts_str ;;
     Ok (strftime lib dt "%Y-%m-%d %H:%M:%S UTC"))
    value_or_type_error
    (Ok (py_str lib (py_or ts_str (JStr "")))).

End WithLib.
End Formatting.

(** ** markdown.py *)

Module Markdown.
Section WithLib.
Variable lib : PyLib.

Definition escape (text : json) : string :=
  if truthy text then html_escape (py_str lib text) else "".

Definition _replace_code_block (group : nat -> option string) : string :=
  let lang := match group 1 with Some g => g | None => "" end in
  let code := match group 2 with Some g => g | None => "None" end in
  qq "<pre><code class='language-" ++ lang ++ qq "'>" ++ code
     ++ "</code></pre>".

Definition render_markdown (text : json) : string :=
  let escaped := escape text in
  let escaped :=
    re_sub lib "```(\w*)\n(.*?)```" (ReplFun _replace_code_block) DOTALL
      escaped in
  let escaped :=
    re_sub lib "`([^`]+)`" (ReplTemplate "<code>\1</code>") NOFLAG escaped in
  let escaped :=
    re_sub lib "\*\*(.+?)\*\*" (ReplTemplate "<strong>\1</strong>") NOFLAG
      escaped in
  let escaped :=
    re_sub lib "(?<!\*)\*(?!\*)(.+?)(?<!\*)\*(?!\*)"
      (ReplTemplate "<em>\1</em>") NOFLAG escaped in
  let escaped :=
    re_sub lib "^### (.+)$" (ReplTemplate "<h3>\1</h3>") MULTILINE escaped in
  let escaped :=
    re_sub lib "^## (.+)$" (ReplTemplate "<h2>\1</h2>") MULTILINE escaped in
  let escaped :=
    re_sub lib "^# (.+)$" (ReplTemplate "<h1>\1</h1>") MULTILINE escaped in
  let escaped :=
    re_sub lib "^- (.+)$" (ReplTemplate "• \1") MULTILINE escaped in
  escaped.

End WithLib.
End Markdown.

(** ** html_builder.py *)

Module HtmlBuilder.
Section WithLib.
Variable lib : PyLib.

#[local] Abbreviation escape := (Markdown.escape lib).
#[local] Abbreviation render_markdown := (Markdown.render_markdown lib).

(** A renderer gets the event, the short timestamp and the anchor, and
    appends to the two fragment lists. *)
Definition fragments : Type := (list string * list string)%type.
Definition handler : Type :=
  json -> string -> string -> list string -> list string -> result fragments.

(** The sidebar link every renderer writes, up to its content. *)
Definition tree_node (role anchor ts content : string) : string :=
  qq "<a class='tree-node tree-role-" ++ role ++ qq "' href='#" ++ anchor
  ++ qq "'>"
  ++ qq "<span class='tree-ts'>" ++ ts ++ "</span> "
  ++ qq "<span class='tree-content'>" ++ content ++ "</span></a>".

Definition message_timestamp (inner : string) : string :=
  qq "<div class='message-timestamp'>" ++ inner ++ "</div>".

Definition _render_user_message : handler :=
  fun evt ts anchor sidebar messages =>
  text <- py_item evt "text" ;;
  cut <- py_slice lib text 80 ;;
  text_preview <- py_replace cut nl " " ;;
  let sidebar := sidebar ++
    [tree_node "user" anchor ts ("👤 " ++ escape text_preview)] in
  let messages := messages ++
    [(qq "<div class='user-message' id='" ++ anchor ++ qq "'>"
     ++ message_timestamp ts
     ++ qq "<div class='markdown-content'>" ++ render_markdown text
     ++ "</div>"
     ++ "</div>")%string] in
  Ok (sidebar, messages).

Definition _render_reasoning : handler :=
  fun evt ts anchor sidebar messages =>
  text <- py_item evt "text" ;;
  cut <- py_slice lib text 60 ;;
  let sidebar := sidebar ++
    [tree_node "thinking" anchor ts ("💭 " ++ escape cut)] in
  let messages := messages ++
    [(qq "<div class='thinking-block' id='" ++ anchor ++ qq "'>"
     ++ message_timestamp ts
     ++ qq "<div class='thinking-text'>" ++ escape text ++ "</div>"
     ++ "</div>")%string] in
  Ok (sidebar, messages).

Definition _render_agent_commentary : handler :=
  fun evt ts anchor sidebar messages =>
  text <- py_item evt "text" ;;
  cut <- py_slice lib text 60 ;;
  let sidebar := sidebar ++
    [tree_node "assistant" anchor ts ("💬 " ++ escape cut)] in
  let messages := messages ++
    [(qq "<div class='commentary-message' id='" ++ anchor ++ qq "'>"
     ++ message_timestamp ts
     ++ qq "<div class='markdown-content'>" ++ render_markdown text
     ++ "</div>"
     ++ "</div>")%string] in
  Ok (sidebar, messages).

Definition _render_assistant_text : handler :=
  fun evt ts anchor sidebar messages =>
  phase0 <- py_get evt "phase" JNull ;;
  phase_label <-
    (if truthy phase0 then
       phase <- py_item evt "phase" ;; Ok (" (" ++ py_str lib phase ++ ")")%string
     else Ok "") ;;
  text <- py_item evt "text" ;;
  cut <- py_slice lib text 60 ;;
  preview <- py_replace cut nl " " ;;
  let sidebar := sidebar ++
    [tree_node "assistant" anchor ts ("🤖 " ++ escape preview)] in
  let messages := messages ++
    [(qq "<div class='assistant-message' id='" ++ anchor ++ qq "'>"
     ++ message_timestamp (ts ++ escape (JStr phase_label))
     ++ qq "<div class='assistant-text markdown-content'>"
     ++ render_markdown text ++ "</div>"
     ++ "</div>")%string] in
  Ok (sidebar, messages).

(** [json.loads(v)]: TypeError unless [v] is a str. *)
Definition py_json_loads (v : json) : result json :=
  match v with
  | JStr s =>
      match json_loads lib s with
      | Some parsed => Ok parsed
      | None => Raise JSONDecodeError
      end
  | _ => Raise TypeError
  end.

Definition decode_or_type_error (e : exn) : bool :=
  match e with
  | JSONDecodeError | TypeError => true
  | _ => false
  end.

(** The [args_preview] of the sidebar entry. *)
Definition tool_call_preview (evt name : json) : result json :=
  try_except
    (raw <- py_item evt "arguments" ;;
     args <- py_json_loads raw ;;
     if eq_str name "exec_command" then
       cmd <- py_get args "cmd" (JStr "") ;;
       py_slice lib cmd 80
     else
       py_slice lib (JStr (json_dumps lib args None)) 80)
    decode_or_type_error
    (raw <- py_item evt "arguments" ;;
     py_slice lib raw 80).

(** The [args_display] of the detail block. *)
Definition tool_call_display (evt name : json) : result string :=
  try_except
    (raw <- py_item evt "arguments" ;;
     args_obj <- py_json_loads raw ;;
     if eq_str name "exec_command" then
       cmd <- py_get args_obj "cmd" (JStr "") ;;
       Ok (qq "<span class='tool-command'>$ " ++ escape cmd ++ "</span>")%string
     else
       Ok ("<pre>" ++ escape (JStr (json_dumps lib args_obj (Some 2)))
           ++ "</pre>")%string)
    decode_or_type_error
    (raw <- py_item evt "arguments" ;;
     Ok ("<pre>" ++ escape raw ++ "</pre>")%string).

(** The detail block of a tool call, around its [args_display]. *)
Definition tool_call_block (anchor ts : string) (name : json)
    (args_display : string) : string :=
  qq "<div class='tool-execution pending' id='" ++ anchor ++ qq "'>"
  ++ message_timestamp ts
  ++ qq "<div class='tool-header'><span class='tool-name'>"
  ++ escape name ++ "</span></div>"
  ++ qq "<div class='tool-args'>" ++ args_display ++ "</div>"
  ++ "</div>".

Definition _render_tool_call : handler :=
  fun evt ts anchor sidebar messages =>
  name <- py_item evt "name" ;;
  args_preview <- tool_call_preview evt name ;;
  let sidebar := sidebar ++
    [tree_node "tool" anchor ts
       ("⚡ " ++ escape name ++ ": " ++ escape args_preview)] in
  args_display <- tool_call_display evt name ;;
  let messages := messages ++
    [tool_call_block anchor ts name args_display] in
  Ok (sidebar, messages).

Definition _render_tool_output : handler :=
  fun evt ts anchor sidebar messages =>
  output <- py_item evt "output" ;;
  len <- py_len output ;;
  let truncated := Nat.ltb 2000 len in
  preview <- py_slice lib output 2000 ;;
  let sidebar := sidebar ++
    [tree_node "tool" anchor ts
       ("📤 output (" ++ str_of_nat len ++ " chars)")] in
  let expandable_class := if truncated then " expandable" else "" in
  let expand_hint :=
    if truncated then
      String nl (qq "<span class='expand-hint'>[click to expand "
                 ++ str_of_nat len ++ " chars]</span>")%string
    else "" in
  let messages := messages ++
    [(qq "<div class='tool-execution success' id='" ++ anchor ++ qq "'>"
     ++ qq "<div class='tool-output" ++ expandable_class
     ++ qq "' onclick='" ++ "this.classList.toggle('expanded')" ++ qq "'>"
     ++ qq "<div class='output-preview'><pre>" ++ escape preview
     ++ expand_hint ++ "</pre></div>"
     ++ qq "<div class='output-full'><pre>" ++ escape output
     ++ "</pre></div>"
     ++ "</div></div>")%string] in
  Ok (sidebar, messages).

Definition _render_task_complete : handler :=
  fun evt ts anchor sidebar messages =>
  text <- py_item evt "text" ;;
  cut <- py_slice lib text 60 ;;
  preview <- py_replace cut nl " " ;;
  let sidebar := sidebar ++
    [tree_node "assistant" anchor ts ("✅ " ++ escape preview)] in
  let messages := messages ++
    [(qq "<div class='assistant-message final-answer' id='" ++ anchor
     ++ qq "'>"
     ++ message_timestamp (ts ++ " — final answer")
     ++ qq "<div class='assistant-text markdown-content'>"
     ++ render_markdown text ++ "</div>"
     ++ "</div>")%string] in
  Ok (sidebar, messages).

Definition _render_task_started : handler :=
  fun evt ts anchor sidebar messages =>
  let sidebar := sidebar ++
    [tree_node "system" anchor ts "▶ Turn started"] in
  let messages := messages ++
    [(qq "<div class='system-event' id='" ++ anchor ++ qq "'>"
     ++ message_timestamp ts
     ++ qq "<span class='event-label'>▶ Turn started</span>"
     ++ "</div>")%string] in
  Ok (sidebar, messages).

Definition _render_turn_aborted : handler :=
  fun evt ts anchor sidebar messages =>
  reason0 <- py_item evt "reason" ;;
  let reason := escape reason0 in
  let sidebar := sidebar ++
    [tree_node "error" anchor ts ("⛔ Turn aborted: " ++ reason)] in
  let messages := messages ++
    [(qq "<div class='system-event error-event' id='" ++ anchor ++ qq "'>"
     ++ message_timestamp ts
     ++ qq "<span class='event-label error-text'>⛔ Turn aborted: "
     ++ reason ++ "</span>"
     ++ "</div>")%string] in
  Ok (sidebar, messages).

Definition _render_thread_rolled_back : handler :=
  fun evt ts anchor sidebar messages =>
  n <- py_item evt "num_turns" ;;
  let sidebar := sidebar ++
    [tree_node "system" anchor ts
       ("↩ Rolled back " ++ py_str lib n ++ " turn(s)")] in
  let messages := messages ++
    [(qq "<div class='system-event' id='" ++ anchor ++ qq "'>"
     ++ message_timestamp ts
     ++ qq "<span class='event-label'>↩ Rolled back " ++ py_str lib n
     ++ " turn(s)</span>"
     ++ "</div>")%string] in
  Ok (sidebar, messages).

Definition _render_token_count : handler :=
  fun evt ts anchor sidebar messages =>
  total <- py_item evt "total" ;;
  input_tokens <- py_get total "input_tokens" (JInt 0) ;;
  skip <- py_le0 input_tokens ;;
  if skip then Ok (sidebar, messages)
  else
    output_tokens <- py_get total "output_tokens" (JInt 0) ;;
    reasoning_tokens <- py_get total "reasoning_output_tokens" (JInt 0) ;;
    s_in <- format_comma lib input_tokens ;;
    s_out <- format_comma lib output_tokens ;;
    s_reasoning <- format_comma lib reasoning_tokens ;;
    let tok_str :=
      ("in:" ++ s_in ++ " " ++ "out:" ++ s_out ++ " "
       ++ "reasoning:" ++ s_reasoning)%string in
    let sidebar := sidebar ++
      [tree_node "system" anchor ts ("📊 " ++ tok_str)] in
    let messages := messages ++
      [(qq "<div class='token-count' id='" ++ anchor ++ qq "'>"
       ++ message_timestamp ts
       ++ qq "<span class='event-label'>📊 Tokens — " ++ tok_str
       ++ "</span>"
       ++ "</div>")%string] in
    Ok (sidebar, messages).

Definition _EVENT_HANDLERS : list (string * handler) :=
  [ ("user_message", _render_user_message);
    ("reasoning", _render_reasoning);
    ("agent_commentary", _render_agent_commentary);
    ("assistant_text", _render_assistant_text);
    ("tool_call", _render_tool_call);
    ("tool_output", _render_tool_output);
    ("task_complete", _render_task_complete);
    ("task_started", _render_task_started);
    ("turn_aborted", _render_turn_aborted);
    ("thread_rolled_back", _render_thread_rolled_back);
    ("token_count", _render_token_count) ].

Fixpoint assoc (k : string) (table : list (string * handler))
  : option handler :=
  match table with
  | [] => None
  | (k', h) :: rest => if String.eqb k k' then Some h else assoc k rest
  end.

(** [table.get(etype)]: the key has to be hashable, and only a str can be
    equal to a key of the table. *)
Definition handlers_get (table : list (string * handler)) (etype : json)
  : result (option handler) :=
  match etype with
  | JStr s => Ok (assoc s table)
  | JList _ | JDict _ => Raise TypeError
  | _ => Ok None
  end.

Definition anchor_of (msg_idx : nat) : string := "msg-" ++ str_of_nat msg_idx.

(** What the loop of [build_html] carries: [msg_idx] and the two lists. *)
Definition loop_state : Type := (nat * list string * list string)%type.

(** One turn of [for evt in events], over any registry. *)
Definition build_html_step (table : list (string * handler)) (evt : json)
    (st : loop_state) : result loop_state :=
  let '(msg_idx, sidebar_items, message_blocks) := st in
  etype <- py_item evt "type" ;;
  raw_ts <- py_item evt "ts" ;;
  ts <- Formatting.format_ts lib raw_ts ;;
  let msg_idx := S msg_idx in
  let anchor := anchor_of msg_idx in
  found <- handlers_get table etype ;;
  match found with
  | Some h =>
      '(sidebar_items, message_blocks) <-
        h evt ts anchor sidebar_items message_blocks ;;
      Ok (msg_idx, sidebar_items, message_blocks)
  | None => Ok (msg_idx, sidebar_items, message_blocks)
  end.

Fixpoint build_html_loop (table : list (string * handler))
    (events : list json) (st : loop_state) : result loop_state :=
  match events with
  | [] => Ok st
  | evt :: rest =>
      st' <- build_html_step table evt st ;;
      build_html_loop table rest st'
  end.

(** The fragments [build_html] joins into the page. *)
Definition build_html_fragments (events : list json) : result loop_state :=
  build_html_loop _EVENT_HANDLERS events (0, [], []).

End WithLib.
End HtmlBuilder.

(** ** A small instance of the library, for running the model

    [sample_lib] answers as CPython does on the inputs the examples below give
    it: timestamps of the one shape [YYYY-MM-DDTHH:MM:SS+00:00], the few
    argument strings of [sample_json_loads], text with no markdown in it.  The
    theorems are stated for every [PyLib]. *)

Definition is_digit (a : ascii) : bool :=
  let n := nat_of_ascii a in Nat.leb 48 n && Nat.leb n 57.

(** The shape of a line against a pattern: [d] stands for a digit, any other
    character for itself. *)
Fixpoint shaped (pattern s : string) : bool :=
  match pattern, s with
  | EmptyString, EmptyString => true
  | String p pattern', String a s' =>
      (if Ascii.eqb p "d"%char then is_digit a else Ascii.eqb p a)
      && shaped pattern' s'
  | _, _ => false
  end.

Definition sample_fromisoformat (s : string) : option string :=
  if shaped "dddd-dd-ddTdd:dd:dd+00:00" s then Some s else None.

Definition sample_strftime (dt fmt : string) : string :=
  if String.eqb fmt "%H:%M:%S" then substring 11 8 dt
  else substring 0 10 dt ++ " " ++ substring 11 8 dt ++ " UTC".

Definition sample_json_loads (s : string) : option json :=
  if String.eqb s (qq "{'cmd':'ls -la'}") then
    Some (JDict [("cmd", JStr "ls -la")])
  else if String.eqb s "[1, 2]" then Some (JList [JInt 1; JInt 2])
  else if String.eqb s "42" then Some (JInt 42)
  else None.

Definition sample_json_dumps (v : json) (indent : option nat) : string :=
  match v with
  | JInt z => str_of_Z z
  | JNull => "null"
  | JBool b => if b then "true" else "false"
  | _ => "..."
  end.

Definition sample_lib : PyLib := {|
  datetime := string;
  fromisoformat := sample_fromisoformat;
  strftime := sample_strftime;
  json_loads := sample_json_loads;
  json_dumps := sample_json_dumps;
  re_sub := fun _ _ _ s => s;
  py_repr := fun _ => "...";
  float_format := fun _ _ => "...";
  dict_slice_error := TypeError
|}.

(** ** Shapes of records

    What the extractor expects of a record for its accesses to succeed: the
    record and the payload it dispatches on are objects, token usage is
    absent, empty or an object of numbers, [content] and [summary] are lists of
    objects. *)

Definition is_dict (v : json) : bool :=
  match v with JDict _ => true | _ => false end.

Definition is_number (v : json) : bool :=
  match v with
  | JBool _ | JInt _ | JFloat _ => true
  | _ => false
  end.

Definition blocks_ok (v : json) : bool :=
  match v with
  | JList l => forallb is_dict l
  | _ => false
  end.

Definition token_usage_ok (payload : dict) : bool :=
  match py_or (dict_get payload "info" JNull) (JDict []) with
  | JDict info =>
      match dict_get info "total_token_usage" (JDict []) with
      | JDict total => forallb is_number (map snd total)
      | other => negb (truthy other)
      end
  | _ => false
  end.

Definition event_msg_ok (payload : json) : bool :=
  match payload with
  | JDict p =>
      if eq_str (dict_get p "type" (JStr "")) "token_count"
      then token_usage_ok p else true
  | _ => false
  end.

Definition response_item_ok (payload : json) : bool :=
  match payload with
  | JDict p =>
      let item_type := dict_get p "type" (JStr "") in
      let role := dict_get p "role" (JStr "") in
      if eq_str item_type "function_call" then true
      else if eq_str item_type "function_call_output" then true
      else if eq_str item_type "message" && eq_str role "assistant" then
        blocks_ok (dict_get p "content" (JList []))
      else if eq_str item_type "reasoning" then
        blocks_ok (dict_get p "summary" (JList []))
      else true
  | _ => false
  end.

Definition record_ok (entry : json) : bool :=
  match entry with
  | JDict e =>
      let etype := dict_get e "type" (JStr "") in
      let payload := dict_get e "payload" (JDict []) in
      if eq_str etype "session_meta" then true
      else if eq_str etype "event_msg" then event_msg_ok payload
      else if eq_str etype "response_item" then response_item_ok payload
      else true
  | _ => false
  end.

(** ** Vocabulary of the statements *)

Definition token_count_event (ts : json) (total : dict) : json :=
  Parser.event [("type", JStr "token_count"); ("ts", ts); ("total", JDict total)].

(** Some value of the map is strictly positive. *)
Definition some_positive (total : dict) : Prop :=
  Exists (fun v => py_gt0 v = Ok true) (map snd total).

Definition assistant_text_event (ts text phase : json) : json :=
  Parser.event [("type", JStr "assistant_text"); ("ts", ts); ("text", text);
         ("phase", phase)].

Definition has_type (tag : string) (block : json) : bool :=
  match block with
  | JDict b => eq_str (dict_get b "type" JNull) tag
  | _ => false
  end.

Definition block_text (block : json) : json :=
  match block with
  | JDict b => dict_get b "text" (JStr "")
  | _ => JStr ""
  end.

(** *** Session metadata *)

Definition is_session_meta (entry : json) : bool :=
  match entry with
  | JDict e => eq_str (dict_get e "type" (JStr "")) "session_meta"
  | _ => false
  end.

Definition not_session_meta (entry : json) : bool :=
  negb (is_session_meta entry).

Definition payload_of (entry : json) : json :=
  match entry with
  | JDict e => dict_get e "payload" (JDict [])
  | _ => JDict []
  end.

(** Following the spec: the payload of the last session_meta record of the
    log, none when the log has no such record. *)
Fixpoint last_session_meta (entries : list json) : option json :=
  match entries with
  | [] => None
  | entry :: rest =>
      match last_session_meta rest with
      | Some payload => Some payload
      | None => if is_session_meta entry then Some (payload_of entry) else None
      end
  end.

Definition or_else (later earlier : option json) : option json :=
  match later with
  | Some payload => Some payload
  | None => earlier
  end.

(** *** Kinds with a renderer *)

(** The kinds of event the extractor writes. *)
Definition event_types : list string :=
  [ "user_message"; "agent_commentary"; "reasoning"; "task_complete";
    "task_started"; "turn_aborted"; "token_count"; "thread_rolled_back";
    "tool_call"; "tool_output"; "assistant_text" ].

Definition known_type (evt : json) : bool :=
  match py_item evt "type" with
  | Ok (JStr s) => existsb (String.eqb s) event_types
  | _ => false
  end.

(** [_EVENT_HANDLERS.get(evt["type"])] finds a renderer. *)
Definition has_handler (lib : PyLib) (evt : json) : bool :=
  match py_item evt "type" with
  | Ok etype =>
      match HtmlBuilder.handlers_get (HtmlBuilder._EVENT_HANDLERS lib) etype with
      | Ok (Some _) => true
      | _ => false
      end
  | Raise _ => false
  end.

Definition renderable (lib : PyLib) (evt : json) : Prop :=
  known_type evt = true /\ has_handler lib evt = true.

(** *** Timestamps and anchors *)

(** What [fromisoformat] is given for the input [s]. *)
Definition iso_input (s : string) : string := replace_char "Z"%char "+00:00" s.

(** The events paired with their 1-based positions. *)
Definition positions (events : list json) : list (json * nat) :=
  combine events (seq 1 (List.length events)).

Section RenderSpec.
Variable lib : PyLib.
Variable table : list (string * HtmlBuilder.handler).

(** Following the spec: render one event under the anchor of a given
    position, nothing being written when no renderer is registered. *)
Definition render_at (evt : json) (position : nat) (frs : HtmlBuilder.fragments)
  : result HtmlBuilder.fragments :=
  etype <- py_item evt "type" ;;
  raw_ts <- py_item evt "ts" ;;
  ts <- Formatting.format_ts lib raw_ts ;;
  found <- HtmlBuilder.handlers_get table etype ;;
  match found with
  | Some h => h evt ts (HtmlBuilder.anchor_of position) (fst frs) (snd frs)
  | None => Ok frs
  end.

Fixpoint render_numbered (numbered : list (json * nat)) (frs : HtmlBuilder.fragments)
  : result HtmlBuilder.fragments :=
  match numbered with
  | [] => Ok frs
  | (evt, position) :: rest =>
      frs' <- render_at evt position frs ;;
      render_numbered rest frs'
  end.

End RenderSpec.

(** ** Sample records and events *)

Definition token_record (usage : dict) : dict :=
  [("type", JStr "token_count");
   ("info", JDict [("total_token_usage", JDict usage)])].

(** A log with one record of every kind the extractor reads, fields missing
    here and there. *)
Definition sample_log : list json :=
  [ JDict [("type", JStr "session_meta"); ("payload", JDict [("id", JStr "abc")])];
    JDict [("type", JStr "event_msg"); ("timestamp", JStr "2024-01-01T00:00:05Z");
           ("payload", JDict [("type", JStr "user_message")])];
    JDict [("type", JStr "event_msg");
           ("payload", JDict (token_record [("input_tokens", JInt 5)]))];
    JDict [("type", JStr "event_msg")];
    JDict [("type", JStr "response_item");
           ("payload", JDict [("type", JStr "message"); ("role", JStr "assistant");
                              ("content", JList [JDict [("type", JStr "output_text")];
                                                 JDict []])])];
    JDict [("type", JStr "response_item");
           ("payload", JDict [("type", JStr "reasoning")])];
    JDict [("unknown", JNull)] ].

(** A record the extractor keeps although its input_tokens is 0. *)
Definition output_only_record : json :=
  JDict [("type", JStr "event_msg"); ("timestamp", JStr "2024-01-01T00:00:05Z");
         ("payload",
          JDict (token_record [("input_tokens", JInt 0); ("output_tokens", JInt 5)]))].

Definition output_only_event : json :=
  token_count_event (JStr "2024-01-01T00:00:05Z")
    [("input_tokens", JInt 0); ("output_tokens", JInt 5)].

Definition two_block_message : dict :=
  [("type", JStr "message"); ("role", JStr "assistant");
   ("phase", JStr "final");
   ("content",
    JList [ JDict [("type", JStr "output_text"); ("text", JStr "first")];
            JDict [("type", JStr "input_text"); ("text", JStr "skipped")];
            JDict [("type", JStr "output_text"); ("text", JStr "second")] ])].

Definition vague_timestamp : string := "yesterday, a quarter past nine".

Definition started (ts : string) : json :=
  Parser.event [("type", JStr "task_started"); ("ts", JStr ts);
                ("turn_id", JStr ""); ("model_context_window", JStr "")].

Definition mystery : json :=
  Parser.event [("type", JStr "mystery"); ("ts", JStr "")].

Definition tool_call (name arguments : string) : json :=
  Parser.event [("type", JStr "tool_call"); ("ts", JStr "");
                ("name", JStr name); ("arguments", JStr arguments);
                ("call_id", JStr "")].

(** A record whose timestamp and whose num_turns carry markup. *)
Definition rollback_record : json :=
  JDict [("type", JStr "event_msg"); ("timestamp", JStr "<img src=x>");
         ("payload",
          JDict [("type", JStr "thread_rolled_back");
                 ("num_turns", JStr "<script>alert(1)</script>")])].

Definition rollback_event : json :=
  Parser.event [("type", JStr "thread_rolled_back"); ("ts", JStr "<img src=x>");
                ("num_turns", JStr "<script>alert(1)</script>")].

(** ** parser.py: the reader

    [parse_jsonl] over the lines of the file, as [for line in f] yields
    them; opening the file is left out.  White space is the ASCII one. *)

(** [c.isspace()] for an ASCII character. *)
Definition is_space (a : ascii) : bool :=
  let n := nat_of_ascii a in
  (Nat.leb 9 n && Nat.leb n 13) || (Nat.leb 28 n && Nat.leb n 32).

Fixpoint lstrip (s : string) : string :=
  match s with
  | EmptyString => EmptyString
  | String a rest => if is_space a then lstrip rest else s
  end.

Fixpoint rstrip (s : string) : string :=
  match s with
  | EmptyString => EmptyString
  | String a rest =>
      match rstrip rest with
      | EmptyString => if is_space a then EmptyString else String a EmptyString
      | kept => String a kept
      end
  end.

(** [s.strip()]. *)
Definition py_strip (s : string) : string := rstrip (lstrip s).

Fixpoint parse_jsonl_loop (lib : PyLib) (lines : list string)
    (entries : list json) : list json :=
  match lines with
  | [] => entries
  | line :: rest =>
      let line := py_strip line in
      if String.eqb line "" then parse_jsonl_loop lib rest entries
      else
        match json_loads lib line with
        | Some entry => parse_jsonl_loop lib rest (entries ++ [entry])
        | None => parse_jsonl_loop lib rest entries
        end
  end.

Definition parse_jsonl (lib : PyLib) (lines : list string) : list json :=
  parse_jsonl_loop lib lines [].

(** ** html_builder.py: the header of the page

    The locals [build_html] reads off the metadata before its loop, and the
    values it hands to the template under their keywords.  The bundled
    assets, the clock and the template text are left out. *)

Module HtmlHeader.
Section WithLib.
Variable lib : PyLib.

Record header : Type := {
  title : string;
  session_id_short : string;
  session_ts_short : string;
  session_id : string;
  session_ts : string;
  model : string;
  cli_version : string;
  cwd : string;
  git_info : string
}.

(** [if meta]. *)
Definition has_meta (meta : option json) : bool :=
  match meta with
  | Some m => truthy m
  | None => false
  end.

(** [meta.get(k, default) if meta else default]. *)
Definition meta_get (meta : option json) (k : string) (default : json)
  : result json :=
  match meta with
  | Some m => if truthy m then py_get m k default else Ok default
  | None => Ok default
  end.

(** [meta.get("git", {}).get(k, "") if meta else ""], before any [or]. *)
Definition meta_git (meta : option json) (k : string) : result json :=
  match meta with
  | Some m =>
      if truthy m then
        git <- py_get m "git" (JDict []) ;;
        py_get git k (JStr "")
      else Ok (JStr "")
  | None => Ok (JStr "")
  end.

Definition build_html_header (meta : option json) : result header :=
  session_id <- meta_get meta "id" (JStr "unknown") ;;
  model <- meta_get meta "model_provider" (JStr "") ;;
  cli_version <- meta_get meta "cli_version" (JStr "") ;;
  cwd <- meta_get meta "cwd" (JStr "") ;;
  branch <- meta_git meta "branch" ;;
  commit <-
    (if has_meta meta then
       hash <- meta_git meta "commit_hash" ;;
       py_slice lib (py_or hash (JStr "")) 12
     else Ok (JStr "")) ;;
  session_ts <- meta_get meta "timestamp" (JStr "") ;;
  id_cut <- py_slice lib session_id 12 ;;
  ts_full <- Formatting.format_ts_full lib session_ts ;;
  Ok {| title := Markdown.escape lib id_cut;
        session_id_short := Markdown.escape lib id_cut;
        session_ts_short := Markdown.escape lib (JStr ts_full);
        session_id := Markdown.escape lib session_id;
        session_ts := Markdown.escape lib (JStr ts_full);
        model := Markdown.escape lib model;
        cli_version := Markdown.escape lib cli_version;
        cwd := Markdown.escape lib cwd;
        git_info :=
          (Markdown.escape lib branch
           ++ (if truthy commit then " @ " ++ Markdown.escape lib commit
               else ""))%string |}.

End WithLib.
End HtmlHeader.

(** ** Vocabulary of the further statements *)

(** None of the characters that open a tag or close an attribute. *)
Definition markup_free (s : string) : Prop :=
  forall a, In a (list_ascii_of_string s) ->
            a <> "<"%char /\ a <> ">"%char /\ a <> dq /\ a <> "'"%char.

(** A sidebar link and a detail block that carry the same anchor. *)
Definition linked_pair (anchor ts entry block : string) : Prop :=
  exists role content kind rest,
    entry = HtmlBuilder.tree_node role anchor ts content /\
    block = (qq "<div class='" ++ kind ++ qq "' id='" ++ anchor ++ qq "'>"
             ++ rest)%string.

(** A renderer that writes nothing or one linked pair. *)
Definition appends_linked (h : HtmlBuilder.handler) : Prop :=
  forall evt ts anchor sidebar messages sidebar' messages',
    h evt ts anchor sidebar messages = Ok (sidebar', messages') ->
    (sidebar' = sidebar /\ messages' = messages) \/
    exists entry block,
      sidebar' = sidebar ++ [entry] /\ messages' = messages ++ [block] /\
      linked_pair anchor ts entry block.

(** Values [v[:n]] raises TypeError on. *)
Definition not_sliceable (v : json) : bool :=
  match v with
  | JNull | JBool _ | JInt _ | JFloat _ => true
  | _ => false
  end.

Definition is_str (v : json) : bool :=
  match v with JStr _ => true | _ => false end.

(** The kinds whose renderer cuts a preview off the text field. *)
Definition text_kinds : list string :=
  [ "user_message"; "reasoning"; "agent_commentary"; "assistant_text";
    "task_complete" ].

(** [entry.get("timestamp", "")] of a record. *)
Definition timestamp_of (entry : json) : json :=
  match entry with
  | JDict e => dict_get e "timestamp" (JStr "")
  | _ => JStr ""
  end.

Definition reasoning_event (ts text : json) : json :=
  Parser.event [("type", JStr "reasoning"); ("ts", ts); ("text", text)].

(** The sub-types [_handle_event_msg] has a branch for. *)
Definition event_msg_types : list string :=
  [ "user_message"; "agent_message"; "agent_reasoning"; "task_complete";
    "task_started"; "turn_aborted"; "token_count"; "thread_rolled_back" ].

Definition is_one_of (v : json) (tags : list string) : bool :=
  existsb (eq_str v) tags.

(** A record no branch of the extractor is written for: a top-level type
    other than the three, an event_msg of another sub-type, a response_item
    of another type, a message of another role. *)
Definition ignored_record (entry : json) : bool :=
  match entry with
  | JDict e =>
      let etype := dict_get e "type" (JStr "") in
      let payload := dict_get e "payload" (JDict []) in
      if eq_str etype "session_meta" then false
      else if eq_str etype "event_msg" then
        match payload with
        | JDict p =>
            negb (is_one_of (dict_get p "type" (JStr "")) event_msg_types)
        | _ => false
        end
      else if eq_str etype "response_item" then
        match payload with
        | JDict p =>
            let item_type := dict_get p "type" (JStr "") in
            negb (is_one_of item_type
                    ["function_call"; "function_call_output"; "reasoning"])
            && negb (eq_str item_type "message"
                     && eq_str (dict_get p "role" (JStr "")) "assistant")
        | _ => false
        end
      else true
  | _ => false
  end.

(** The outcome of a handler does not depend on the events already there:
    it raises whatever they are, or appends the same new events to them. *)
Definition appends_only (f : list json -> result (list json))
    (new : list json) : Prop :=
  forall events, f events = Ok (events ++ new).

Definition raises_always {A : Type} (f : list json -> result A) (e : exn)
  : Prop :=
  forall events, f events = Raise e.

(** An event that carries the timestamp [ts]. *)
Definition has_ts (ts evt : json) : Prop := py_item evt "ts" = Ok ts.

(** What a run of the loop has written for one event: its position, its
    sidebar link and its detail block. *)
Definition rendered : Type := (nat * (string * string))%type.

Definition entry_of (r : rendered) : string := fst (snd r).
Definition block_of (r : rendered) : string := snd (snd r).

(** The link and the block carry the anchor of the position. *)
Definition linked_at (r : rendered) : Prop :=
  exists ts, linked_pair (HtmlBuilder.anchor_of (fst r)) ts
               (entry_of r) (block_of r).

Definition is_list (v : json) : bool :=
  match v with JList _ => true | _ => false end.

(** ** Further sample records *)

(** A final answer with no last message. *)
Definition null_answer_record : json :=
  JDict [("type", JStr "event_msg"); ("timestamp", JStr "2024-01-01T00:00:09Z");
         ("payload", JDict [("type", JStr "task_complete");
                            ("last_agent_message", JNull)])].

Definition null_answer_event : json :=
  Parser.event [("type", JStr "task_complete");
                ("ts", JStr "2024-01-01T00:00:09Z");
                ("text", JNull); ("turn_id", JStr "")].

Definition sample_meta : json :=
  JDict [("id", JStr "0123456789abcdef");
         ("timestamp", JStr "2024-01-01T00:00:00Z");
         ("model_provider", JStr "<m>");
         ("git", JDict [("branch", JStr "main");
                        ("commit_hash", JStr "0123456789abcdef0123")])].

Definition sample_header : HtmlHeader.header :=
  {| HtmlHeader.title := "0123456789ab";
     HtmlHeader.session_id_short := "0123456789ab";
     HtmlHeader.session_ts_short := "2024-01-01 00:00:00 UTC";
     HtmlHeader.session_id := "0123456789abcdef";
     HtmlHeader.session_ts := "2024-01-01 00:00:00 UTC";
     HtmlHeader.model := "&lt;m&gt;";
     HtmlHeader.cli_version := "";
     HtmlHeader.cwd := "";
     HtmlHeader.git_info := "main @ 0123456789ab" |}.

(** * Verification *)

(** ** The extractor completes on well-shaped records *)

Section Totality.
Import Parser.

Lemma any_gt0_numbers (vs : list json) :
  forallb is_number vs = true -> exists b, any_gt0 vs = Ok b.
Proof.
  induction vs as [|v vs IH]; cbn; intros H.
  - now exists false.
  - apply andb_prop in H as [Hv Hvs].
    destruct v; try discriminate; cbn;
      match goal with
      | |- context [if ?c then _ else _] => destruct c; eauto
      end.
Qed.

Lemma collect_blocks_total tag mk (blocks : list json) :
  forallb is_dict blocks = true ->
  forall events, exists events', collect_blocks tag mk blocks events = Ok events'.
Proof.
  induction blocks as [|b blocks IH]; cbn; intros H events.
  - eauto.
  - apply andb_prop in H as [Hb Hbs].
    destruct b; try discriminate; cbn.
    destruct (eq_str _ tag); auto.
Qed.

Lemma handle_event_msg_total payload ts events :
  event_msg_ok payload = true ->
  exists events', _handle_event_msg payload ts events = Ok events'.
Proof.
  destruct payload as [| | | | |l|p]; try discriminate.
  unfold event_msg_ok, _handle_event_msg; cbn [py_get bind].
  destruct (eq_str _ "user_message"); [eauto|].
  destruct (eq_str _ "agent_message"); [eauto|].
  destruct (eq_str _ "agent_reasoning"); [eauto|].
  destruct (eq_str _ "task_complete"); [eauto|].
  destruct (eq_str _ "task_started"); [eauto|].
  destruct (eq_str _ "turn_aborted"); [eauto|].
  destruct (eq_str _ "token_count").
  - unfold token_usage_ok.
    destruct (py_or _ _) as [| | | | | |info]; try discriminate.
    cbn [py_get bind].
    destruct (dict_get info _ _) as [| | | | | |total] eqn:E; cbn [truthy];
      intros H; try (apply negb_true_iff in H; rewrite ?H; now eauto).
    destruct total as [|kv total]; [eauto|].
    cbn [py_values bind].
    destruct (any_gt0_numbers _ H) as [b ->]; cbn [bind].
    destruct b; eauto.
  - destruct (eq_str _ "thread_rolled_back"); eauto.
Qed.

Lemma handle_response_item_total payload ts events :
  response_item_ok payload = true ->
  exists events', _handle_response_item payload ts events = Ok events'.
Proof.
  destruct payload as [| | | | |l|p]; try discriminate.
  unfold response_item_ok, _handle_response_item; cbn [py_get bind].
  destruct (eq_str _ "function_call"); [eauto|].
  destruct (eq_str _ "function_call_output"); [eauto|].
  destruct (eq_str _ "message" && eq_str _ "assistant").
  - unfold blocks_ok.
    destruct (dict_get p "content" _); try discriminate.
    cbn [py_iter bind]; intros H. now apply collect_blocks_total.
  - destruct (eq_str _ "reasoning"); [|eauto].
    unfold blocks_ok.
    destruct (dict_get p "summary" _); try discriminate.
    cbn [py_iter bind]; intros H. now apply collect_blocks_total.
Qed.

Lemma extract_loop_total (entries : list json) :
  forallb record_ok entries = true ->
  forall meta events,
    exists meta' events', extract_loop entries meta events = Ok (meta', events').
Proof.
  induction entries as [|entry entries IH]; cbn [forallb extract_loop];
    intros H meta events.
  - eauto.
  - apply andb_prop in H as [He Hes].
    destruct entry as [| | | | |l|e]; try discriminate.
    unfold record_ok in He; cbn [py_get bind] in *.
    destruct (eq_str _ "session_meta"); [now apply IH|].
    destruct (eq_str _ "event_msg").
    + destruct (handle_event_msg_total _ (dict_get e "timestamp" (JStr ""))
                  events He) as [events' ->].
      cbn [bind]. now apply IH.
    + destruct (eq_str _ "response_item"); [|now apply IH].
      destruct (handle_response_item_total _
                  (dict_get e "timestamp" (JStr "")) events He)
        as [events' ->].
      cbn [bind]. now apply IH.
Qed.

End Totality.

(** Decide the comparisons of a known string with the tags of a dispatch. *)
Ltac decide_tags :=
  repeat match goal with
  | |- context [eq_str (JStr ?a) ?b] =>
      let v := eval vm_compute in (eq_str (JStr a) b) in
      change (eq_str (JStr a) b) with v
  end;
  cbv iota; cbn [andb].

(** ** Facts about the extractor *)

Section ExtractorFacts.
Import Parser.

Lemma snoc_neq {A : Type} (l : list A) (x : A) : l ++ [x] <> l.
Proof.
  intros H. apply (f_equal (@List.length A)) in H.
  rewrite length_app in H. cbn in H. lia.
Qed.

Lemma any_gt0_true (vs : list json) :
  any_gt0 vs = Ok true -> Exists (fun v => py_gt0 v = Ok true) vs.
Proof.
  induction vs as [|v vs IH]; cbn; [discriminate|].
  destruct (py_gt0 v) as [[|]|] eqn:E; cbn; intros H; try discriminate.
  - now constructor.
  - constructor 2. now apply IH.
Qed.

Lemma any_gt0_false (vs : list json) :
  any_gt0 vs = Ok false -> ~ Exists (fun v => py_gt0 v = Ok true) vs.
Proof.
  induction vs as [|v vs IH]; cbn; intros H Hex.
  - inversion Hex.
  - destruct (py_gt0 v) as [[|]|] eqn:E; cbn in H; try discriminate.
    inversion Hex; subst; [congruence|]. now apply IH.
Qed.

(** The token_count branch, once the dispatch and the two lookups are done. *)
Lemma handle_token_count (p info total : dict) (ts : json)
    (events : list json) :
  dict_get p "type" (JStr "") = JStr "token_count" ->
  py_or (dict_get p "info" JNull) (JDict []) = JDict info ->
  dict_get info "total_token_usage" (JDict []) = JDict total ->
  _handle_event_msg (JDict p) ts events =
    match total with
    | [] => Ok events
    | _ :: _ =>
        positive <- any_gt0 (map snd total) ;;
        if positive then Ok (events ++ [token_count_event ts total])
        else Ok events
    end.
Proof.
  intros Htype Hinfo Htotal.
  unfold _handle_event_msg; cbn [py_get bind].
  rewrite Htype; decide_tags.
  rewrite Hinfo; cbn [py_get bind]. rewrite Htotal.
  destruct total; reflexivity.
Qed.



Example token_count_empty_map :
  _handle_event_msg (JDict (token_record [])) (JStr "") [] = Ok [].
Proof. reflexivity. Qed.

Example token_count_all_zero :
  _handle_event_msg
    (JDict (token_record [("input_tokens", JInt 0); ("output_tokens", JInt 0)]))
    (JStr "") [] = Ok [].
Proof. reflexivity. Qed.

Example token_count_no_info :
  _handle_event_msg (JDict [("type", JStr "token_count"); ("info", JNull)])
    (JStr "") [] = Ok [].
Proof. reflexivity. Qed.

(** C1 (amended): on a log whose records have the expected shapes
    ([record_ok]: each record an object, the payload of an event_msg or
    response_item an object, token usage absent, empty or a map of numbers,
    content and summary lists of objects) the extraction completes: it
    returns a metadata value and an event list and raises nothing. *)
Theorem extract_conversation_completes (entries : list json) :
  forallb record_ok entries = true ->
  exists meta events, extract_conversation entries = Ok (meta, events).
Proof.
  intros H. now apply extract_loop_total.
Qed.

Lemma extract_conversation_completes_witness :
  exists meta events, extract_conversation sample_log = Ok (meta, events).
Proof.
  apply (extract_conversation_completes sample_log). reflexivity.
Defined.

(** Missing fields are filled with the defaults of the accesses. *)
Example defaults_fill_missing_fields :
  extract_conversation sample_log =
  Ok (Some (JDict [("id", JStr "abc")]),
      [ event [("type", JStr "user_message"); ("ts", JStr "2024-01-01T00:00:05Z");
               ("text", JStr ""); ("images", JList [])];
        token_count_event (JStr "") [("input_tokens", JInt 5)];
        event [("type", JStr "assistant_text"); ("ts", JStr "");
               ("text", JStr ""); ("phase", JStr "")] ]).
Proof. reflexivity. Qed.

(** C1 as stated fails: a record that is not an object, a null payload, a
    content block that is not an object and a token value that is not a
    number each make the extraction raise. *)
Lemma extract_conversation_raises :
  extract_conversation [JInt 5] = Raise AttributeError /\
  extract_conversation
    [JDict [("type", JStr "event_msg"); ("payload", JNull)]]
  = Raise AttributeError /\
  extract_conversation
    [JDict [("type", JStr "response_item");
            ("payload", JDict [("type", JStr "message"); ("role", JStr "assistant");
                               ("content", JList [JStr "hello"])])]]
  = Raise AttributeError /\
  extract_conversation
    [JDict [("type", JStr "event_msg");
            ("payload", JDict (token_record [("input_tokens", JStr "many")]))]]
  = Raise TypeError.
Proof. repeat split. Qed.

(** The token_count branch emits only over a map with a positive value,
    whatever the shape of the payload. *)
Lemma token_count_only_if_positive (payload ts : json)
    (events events' : list json) :
  py_get payload "type" (JStr "") = Ok (JStr "token_count") ->
  _handle_event_msg payload ts events = Ok events' ->
  events' = events \/
  exists total, events' = events ++ [token_count_event ts total]
                /\ some_positive total.
Proof.
  destruct payload as [| | | | |l|p]; try discriminate.
  cbn [py_get]; intros Htype; injection Htype as Htype.
  unfold _handle_event_msg; cbn [py_get bind].
  rewrite Htype; decide_tags.
  destruct (py_or _ _) as [| | | | | |info]; try discriminate.
  cbn [py_get bind].
  destruct (truthy _) eqn:Etruthy; [|intros H; injection H as <-; now left].
  destruct (dict_get info _ _) as [| | | | | |total]; try discriminate.
  cbn [py_values bind].
  destruct (any_gt0 _) as [[|]|] eqn:Eany; cbn [bind]; try discriminate;
    intros H; injection H as <-; [right|now left].
  exists total. split; [reflexivity|]. now apply any_gt0_true.
Qed.




Lemma extract_loop_session_meta (entries : list json) :
  forall meta events,
    extract_loop entries meta events =
    ('(_, events') <- extract_loop (filter not_session_meta entries) None events ;;
     Ok (or_else (last_session_meta entries) meta, events')).
Proof.
  induction entries as [|entry entries IH]; intros meta events.
  - reflexivity.
  - cbn [filter last_session_meta].
    destruct entry as [| | | | |l|e]; try reflexivity.
    unfold not_session_meta, is_session_meta.
    cbn [extract_loop py_get bind payload_of].
    destruct (eq_str _ "session_meta") eqn:Emeta; cbn [negb].
    + rewrite IH. destruct (extract_loop _ None events) as [[m evs]|]; cbn [bind];
        [|reflexivity].
      now destruct (last_session_meta entries).
    + cbn [extract_loop py_get bind]. rewrite Emeta.
      assert (Hmeta : or_else (last_session_meta entries) meta =
                      or_else (match last_session_meta entries with
                               | Some payload => Some payload
                               | None => None
                               end) meta)
        by now destruct (last_session_meta entries).
      rewrite <- Hmeta.
      destruct (eq_str _ "event_msg").
      { destruct (_handle_event_msg _ _ events); cbn [bind]; [|reflexivity].
        apply IH. }
      destruct (eq_str _ "response_item").
      { destruct (_handle_response_item _ _ events); cbn [bind]; [|reflexivity].
        apply IH. }
      apply IH.
Qed.

(** C5: the events of a log are those of the log with its session_meta
    records taken out, and the metadata is the payload of the last
    session_meta record, none when there is none. *)
Theorem session_meta_last_wins (entries : list json) :
  extract_conversation entries =
  ('(_, events) <- extract_conversation (filter not_session_meta entries) ;;
   Ok (last_session_meta entries, events)).
Proof.
  unfold extract_conversation. rewrite extract_loop_session_meta.
  destruct (extract_loop _ None []) as [[m evs]|]; cbn [bind]; [|reflexivity].
  now destruct (last_session_meta entries).
Qed.

Lemma last_session_meta_none (entries : list json) :
  forallb not_session_meta entries = true -> last_session_meta entries = None.
Proof.
  induction entries as [|entry entries IH]; cbn; [reflexivity|].
  unfold not_session_meta at 1. intros H. apply andb_prop in H as [He Hes].
  rewrite (IH Hes). apply negb_true_iff in He. now rewrite He.
Qed.

Lemma last_session_meta_last (before after : list json) (entry : json) :
  is_session_meta entry = true ->
  forallb not_session_meta after = true ->
  last_session_meta (before ++ entry :: after) = Some (payload_of entry).
Proof.
  intros He Hafter.
  induction before as [|b before IH]; cbn [app last_session_meta].
  - now rewrite (last_session_meta_none _ Hafter), He.
  - now rewrite IH.
Qed.

(** A log of session_meta records only yields no event at all. *)
Lemma only_session_meta (entries : list json) :
  forallb is_session_meta entries = true ->
  extract_conversation entries = Ok (last_session_meta entries, []).
Proof.
  intros H. unfold extract_conversation. rewrite extract_loop_session_meta.
  replace (filter not_session_meta entries) with (@nil json);
    [cbn; now destruct (last_session_meta entries)|].
  induction entries as [|entry entries IH]; [reflexivity|].
  cbn in *. apply andb_prop in H as [He Hes]. unfold not_session_meta at 1.
  rewrite He. cbn. now apply IH.
Qed.

Example session_meta_twice :
  extract_conversation
    [ JDict [("type", JStr "session_meta"); ("payload", JDict [("id", JStr "first")])];
      JDict [("type", JStr "event_msg");
             ("payload", JDict [("type", JStr "turn_aborted")])];
      JDict [("type", JStr "session_meta"); ("payload", JDict [("id", JStr "second")])] ]
  = Ok (Some (JDict [("id", JStr "second")]),
        [event [("type", JStr "turn_aborted"); ("ts", JStr "");
                ("reason", JStr "")]]).
Proof. reflexivity. Qed.

(** *** Fan-out of content blocks *)

Lemma collect_blocks_objects tag mk (blocks : list json) :
  forallb is_dict blocks = true ->
  forall events,
    collect_blocks tag mk blocks events =
    Ok (events ++ map (fun b => mk (block_text b)) (filter (has_type tag) blocks)).
Proof.
  induction blocks as [|b blocks IH]; cbn [forallb]; intros H events.
  - cbn. now rewrite app_nil_r.
  - apply andb_prop in H as [Hb Hbs].
    destruct b as [| | | | |l|b]; try discriminate.
    cbn [collect_blocks py_get bind filter has_type block_text].
    destruct (eq_str _ tag).
    + rewrite (IH Hbs). cbn [map]. now rewrite <- app_assoc.
    + now apply IH.
Qed.



Example assistant_message_no_output_text :
  _handle_response_item
    (JDict [("type", JStr "message"); ("role", JStr "assistant");
            ("content", JList [JDict [("type", JStr "input_text")]])])
    (JStr "") []
  = Ok [].
Proof. reflexivity. Qed.

(** *** Every emitted kind has a renderer *)

Section Renderable.
Variable lib : PyLib.

Lemma renderable_snoc (events : list json) (evt : json) :
  Forall (renderable lib) events -> renderable lib evt ->
  Forall (renderable lib) (events ++ [evt]).
Proof.
  intros H He. apply Forall_app. split; [exact H|]. now constructor.
Qed.

Ltac emitted :=
  intros H; injection H as <-;
  first [ assumption
        | apply renderable_snoc; [assumption | split; reflexivity] ].

Lemma collect_blocks_renderable tag mk (blocks : list json) :
  (forall text, renderable lib (mk text)) ->
  forall events events',
    Forall (renderable lib) events ->
    collect_blocks tag mk blocks events = Ok events' ->
    Forall (renderable lib) events'.
Proof.
  intros Hmk.
  induction blocks as [|b blocks IH]; cbn [collect_blocks];
    intros events events' Hev.
  - intros H. now injection H as <-.
  - destruct (py_get b "type" JNull) as [btype|]; cbn [bind]; [|discriminate].
    destruct (eq_str btype tag); [|now apply IH].
    destruct (py_get b "text" (JStr "")) as [text|]; cbn [bind]; [|discriminate].
    apply IH. now apply renderable_snoc.
Qed.

Lemma handle_event_msg_renderable (payload ts : json)
    (events events' : list json) :
  Forall (renderable lib) events ->
  _handle_event_msg payload ts events = Ok events' ->
  Forall (renderable lib) events'.
Proof.
  intros Hev.
  destruct payload as [| | | | |l|p]; try discriminate.
  unfold _handle_event_msg; cbn [py_get bind].
  destruct (eq_str _ "user_message"); [emitted|].
  destruct (eq_str _ "agent_message"); [emitted|].
  destruct (eq_str _ "agent_reasoning"); [emitted|].
  destruct (eq_str _ "task_complete"); [emitted|].
  destruct (eq_str _ "task_started"); [emitted|].
  destruct (eq_str _ "turn_aborted"); [emitted|].
  destruct (eq_str _ "token_count").
  - destruct (py_get _ "total_token_usage" _) as [total|]; cbn [bind];
      [|discriminate].
    destruct (truthy total); [|emitted].
    destruct (py_values total) as [vs|]; cbn [bind]; [|discriminate].
    destruct (any_gt0 vs) as [[|]|]; cbn [bind]; [emitted|emitted|discriminate].
  - destruct (eq_str _ "thread_rolled_back"); emitted.
Qed.

Lemma handle_response_item_renderable (payload ts : json)
    (events events' : list json) :
  Forall (renderable lib) events ->
  _handle_response_item payload ts events = Ok events' ->
  Forall (renderable lib) events'.
Proof.
  intros Hev.
  destruct payload as [| | | | |l|p]; try discriminate.
  unfold _handle_response_item; cbn [py_get bind].
  destruct (eq_str _ "function_call"); [emitted|].
  destruct (eq_str _ "function_call_output"); [emitted|].
  destruct (eq_str _ "message" && eq_str _ "assistant").
  - destruct (py_iter _) as [blocks|]; cbn [bind]; [|discriminate].
    apply collect_blocks_renderable; [|assumption].
    intros text. split; reflexivity.
  - destruct (eq_str _ "reasoning"); [|emitted].
    destruct (py_iter _) as [blocks|]; cbn [bind]; [|discriminate].
    apply collect_blocks_renderable; [|assumption].
    intros text. split; reflexivity.
Qed.

Lemma extract_loop_renderable (entries : list json) :
  forall meta events meta' events',
    Forall (renderable lib) events ->
    extract_loop entries meta events = Ok (meta', events') ->
    Forall (renderable lib) events'.
Proof.
  induction entries as [|entry entries IH]; cbn [extract_loop];
    intros meta events meta' events' Hev.
  - intros H. now injection H as _ <-.
  - destruct entry as [| | | | |l|e]; try discriminate.
    cbn [py_get bind].
    destruct (eq_str _ "session_meta"); [now apply IH|].
    destruct (eq_str _ "event_msg").
    + destruct (_handle_event_msg _ _ events) as [evs|] eqn:E; cbn [bind];
        [|discriminate].
      apply IH. now apply (handle_event_msg_renderable _ _ _ _ Hev E).
    + destruct (eq_str _ "response_item"); [|now apply IH].
      destruct (_handle_response_item _ _ events) as [evs|] eqn:E; cbn [bind];
        [|discriminate].
      apply IH. now apply (handle_response_item_renderable _ _ _ _ Hev E).
Qed.

End Renderable.

(** C10: every event of an extraction has a type tag among the eleven kinds
    the extractor writes, and the registry of renderers has an entry under
    that tag, so the lookup of the rendering loop never comes back empty. *)
Theorem extracted_events_have_renderers (lib : PyLib) (entries : list json)
    (meta : option json) (events : list json) :
  extract_conversation entries = Ok (meta, events) ->
  Forall (renderable lib) events.
Proof.
  unfold extract_conversation. apply extract_loop_renderable. constructor.
Qed.

Lemma extracted_events_have_renderers_witness :
  Forall (renderable sample_lib)
    [ event [("type", JStr "user_message"); ("ts", JStr "2024-01-01T00:00:05Z");
             ("text", JStr ""); ("images", JList [])];
      token_count_event (JStr "") [("input_tokens", JInt 5)];
      event [("type", JStr "assistant_text"); ("ts", JStr "");
             ("text", JStr ""); ("phase", JStr "")] ].
Proof.
  exact (extracted_events_have_renderers sample_lib sample_log _ _ eq_refl).
Defined.

End ExtractorFacts.

(** ** Facts about the timestamp formatters *)

Section FormattingFacts.
Import Formatting.
Variable lib : PyLib.

Lemma string_app_assoc (a b c : string) :
  ((a ++ b) ++ c = a ++ (b ++ c))%string.
Proof.
  induction a as [|x a IH]; cbn; [reflexivity|]. now rewrite IH.
Qed.

Lemma replace_char_app (c : ascii) (r s t : string) :
  replace_char c r (s ++ t) = (replace_char c r s ++ replace_char c r t)%string.
Proof.
  induction s as [|a s IH]; cbn [replace_char append]; [reflexivity|].
  destruct (Ascii.eqb a c); cbn [append]; rewrite IH; [|reflexivity].
  symmetry. apply string_app_assoc.
Qed.

Lemma format_ts_str (s : string) :
  format_ts lib (JStr s) =
  Ok (match fromisoformat lib (iso_input s) with
      | Some dt => strftime lib dt "%H:%M:%S"
      | None => substring 0 19 s
      end).
Proof.
  unfold format_ts, parse_iso, iso_input; cbn [py_replace bind].
  destruct (fromisoformat lib _); [reflexivity|].
  cbn [bind try_except value_or_type_error truthy].
  destruct s; reflexivity.
Qed.

Lemma format_ts_full_str (s : string) :
  format_ts_full lib (JStr s) =
  Ok (match fromisoformat lib (iso_input s) with
      | Some dt => strftime lib dt "%Y-%m-%d %H:%M:%S UTC"
      | None => s
      end).
Proof.
  unfold format_ts_full, parse_iso, iso_input; cbn [py_replace bind].
  destruct (fromisoformat lib _); [reflexivity|].
  cbn [bind try_except value_or_type_error].
  destruct s; reflexivity.
Qed.

(** C4 (amended): on every string both formatters return and raise nothing.
    The string is parsed with each Z replaced by +00:00, so a trailing Z reads
    as that offset.  When the parse fails, [format_ts] returns the first 19
    characters of the input and [format_ts_full] returns the input whole;
    both return the empty string on the empty input. *)
Theorem timestamp_formatters_fall_back (s : string) :
  format_ts lib (JStr s) =
    Ok (match fromisoformat lib (iso_input s) with
        | Some dt => strftime lib dt "%H:%M:%S"
        | None => substring 0 19 s
        end) /\
  format_ts_full lib (JStr s) =
    Ok (match fromisoformat lib (iso_input s) with
        | Some dt => strftime lib dt "%Y-%m-%d %H:%M:%S UTC"
        | None => s
        end) /\
  parse_iso lib (JStr (s ++ "Z")) = parse_iso lib (JStr (s ++ "+00:00")) /\
  substring 0 19 "" = "".
Proof.
  split; [apply format_ts_str|].
  split; [apply format_ts_full_str|].
  split; [|reflexivity].
  unfold parse_iso; cbn [py_replace bind].
  now rewrite !replace_char_app.
Qed.

End FormattingFacts.

(** C4 as stated fails: [format_ts_full] hands an unparseable input back
    whole, not cut to its first 19 characters. *)
Lemma format_ts_full_keeps_whole_input :
  Formatting.format_ts_full sample_lib (JStr vague_timestamp)
  = Ok "yesterday, a quarter past nine" /\
  substring 0 19 vague_timestamp = "yesterday, a quarte".
Proof. split; reflexivity. Qed.

Example format_ts_cuts_to_19 :
  Formatting.format_ts sample_lib (JStr vague_timestamp)
  = Ok "yesterday, a quarte".
Proof. reflexivity. Qed.

Example format_ts_with_Z :
  Formatting.format_ts sample_lib (JStr "2024-01-01T00:00:05Z") = Ok "00:00:05" /\
  Formatting.format_ts_full sample_lib (JStr "2024-01-01T00:00:00Z")
  = Ok "2024-01-01 00:00:00 UTC".
Proof. split; reflexivity. Qed.

Example format_ts_empty :
  Formatting.format_ts sample_lib (JStr "") = Ok "" /\
  Formatting.format_ts_full sample_lib (JStr "") = Ok "".
Proof. split; reflexivity. Qed.

(** A timestamp that is not a string is outside the formatters' domain. *)
Example format_ts_number :
  Formatting.format_ts sample_lib (JInt 1704067205) = Raise AttributeError.
Proof. reflexivity. Qed.

(** ** Facts about the rendering loop *)

Section AnchorFacts.
Import HtmlBuilder.
Variable lib : PyLib.
Variable table : list (string * handler).

Lemma build_html_loop_numbered (events : list json) :
  forall k sidebar messages,
    build_html_loop lib table events (k, sidebar, messages) =
    ('(sidebar', messages') <-
       render_numbered lib table (combine events (seq (S k) (List.length events)))
         (sidebar, messages) ;;
     Ok (k + List.length events, sidebar', messages')).
Proof.
  induction events as [|evt events IH]; intros k sidebar messages.
  - cbn. now rewrite Nat.add_0_r.
  - cbn [build_html_loop List.length seq combine render_numbered].
    unfold build_html_step, render_at.
    destruct (py_item evt "type") as [etype|]; cbn [bind]; [|reflexivity].
    destruct (py_item evt "ts") as [raw_ts|]; cbn [bind]; [|reflexivity].
    destruct (Formatting.format_ts lib raw_ts) as [ts|]; cbn [bind];
      [|reflexivity].
    destruct (handlers_get table etype) as [[h|]|]; cbn [bind fst snd];
      [| |reflexivity].
    + destruct (h evt ts (anchor_of (S k)) sidebar messages)
        as [[sidebar' messages']|]; cbn [bind]; [|reflexivity].
      rewrite IH. now rewrite Nat.add_succ_r.
    + rewrite IH. now rewrite Nat.add_succ_r.
Qed.

Lemma anchor_of_inj (m n : nat) : anchor_of m = anchor_of n -> m = n.
Proof.
  unfold anchor_of, str_of_nat. cbn [append]. intros H.
  injection H as H.
  apply (f_equal NilEmpty.uint_of_string) in H.
  rewrite !NilEmpty.usu in H. injection H as H.
  apply (f_equal Nat.of_uint) in H.
  now rewrite !DecimalNat.Unsigned.of_to in H.
Qed.

Lemma anchors_nodup (start len : nat) :
  NoDup (map anchor_of (seq start len)).
Proof.
  apply Finite.Injective_map_NoDup; [|apply seq_NoDup].
  intros m n. apply anchor_of_inj.
Qed.

Lemma combine_seq_nth (events : list json) :
  forall i start evt,
    nth_error events i = Some evt ->
    nth_error (combine events (seq start (List.length events))) i
    = Some (evt, start + i).
Proof.
  induction events as [|e events IH]; intros [|i] start evt;
    cbn; try discriminate.
  - intros H. injection H as ->. now rewrite Nat.add_0_r.
  - intros H. rewrite (IH i (S start) evt H). now rewrite Nat.add_succ_r.
Qed.

Lemma positions_nth (events : list json) (i : nat) (evt : json) :
  nth_error events i = Some evt ->
  nth_error (positions events) i = Some (evt, S i).
Proof.
  intros H. exact (combine_seq_nth events i 1 evt H).
Qed.

(** C6: the loop of [build_html] renders the event at 1-based position n
    under the anchor msg-n, whatever the registry holds for its kind; the
    counter ends at the number of events, and the anchors of a run are
    pairwise distinct and numbered 1, 2, 3, ... in event order. *)
Theorem anchors_follow_positions (events : list json) :
  build_html_loop lib table events (0, [], []) =
    ('(sidebar, messages) <- render_numbered lib table (positions events) ([], []) ;;
     Ok (List.length events, sidebar, messages)) /\
  (forall i evt, nth_error events i = Some evt ->
                 nth_error (positions events) i = Some (evt, S i)) /\
  map snd (positions events) = seq 1 (List.length events) /\
  NoDup (map anchor_of (seq 1 (List.length events))) /\
  anchor_of 1 = "msg-1".
Proof.
  split; [apply build_html_loop_numbered|].
  split; [apply positions_nth|].
  split; [|split; [apply anchors_nodup|reflexivity]].
  unfold positions. generalize 1.
  induction events as [|e events IH]; intros start; cbn; [reflexivity|].
  now rewrite IH.
Qed.

End AnchorFacts.

Lemma anchors_follow_positions_witness :
  nth_error
    (positions [started "2024-01-01T00:00:01Z"; mystery;
                started "2024-01-01T00:00:03Z"]) 2
  = Some (started "2024-01-01T00:00:03Z", 3).
Proof.
  exact (proj1 (proj2 (anchors_follow_positions sample_lib
                         (HtmlBuilder._EVENT_HANDLERS sample_lib)
                         [started "2024-01-01T00:00:01Z"; mystery;
                          started "2024-01-01T00:00:03Z"]))
           2 (started "2024-01-01T00:00:03Z") eq_refl).
Defined.

(** An event of an unregistered kind uses up its number: the third event is
    msg-3, and no fragment carries msg-2. *)
Example anchor_skipped_not_reused :
  HtmlBuilder.build_html_fragments sample_lib
    [started "2024-01-01T00:00:01Z"; mystery; started "2024-01-01T00:00:03Z"]
  = Ok (3,
        [ HtmlBuilder.tree_node "system" "msg-1" "00:00:01" "▶ Turn started";
          HtmlBuilder.tree_node "system" "msg-3" "00:00:03" "▶ Turn started" ],
        [ (qq "<div class='system-event' id='msg-1'>"
           ++ HtmlBuilder.message_timestamp "00:00:01"
           ++ qq "<span class='event-label'>▶ Turn started</span></div>")%string;
          (qq "<div class='system-event' id='msg-3'>"
           ++ HtmlBuilder.message_timestamp "00:00:03"
           ++ qq "<span class='event-label'>▶ Turn started</span></div>")%string ]).
Proof. reflexivity. Qed.

(** ** Facts about the renderers *)

Section ToolCallFacts.
Import HtmlBuilder.
Variable lib : PyLib.

Lemma escape_str (s : string) : Markdown.escape lib (JStr s) = html_escape s.
Proof.
  unfold Markdown.escape; cbn [truthy py_str]. now destruct s.
Qed.

(** With string arguments the preview of the sidebar is there whenever the
    detail block is: what its first attempt raises on a cmd that cannot be
    cut is caught. *)
Lemma tool_call_preview_returns (evt name : json) (raw : string) :
  py_item evt "arguments" = Ok (JStr raw) ->
  (forall v, json_loads lib raw = Some v ->
             eq_str name "exec_command" = true ->
             exists d, v = JDict d /\
                       is_dict (dict_get d "cmd" (JStr "")) = false) ->
  exists preview, tool_call_preview lib evt name = Ok preview.
Proof.
  intros Hraw Hobj. unfold tool_call_preview.
  rewrite Hraw; cbn [bind py_json_loads].
  destruct (json_loads lib raw) as [v|] eqn:Eloads; cbn [bind].
  - destruct (eq_str name "exec_command") eqn:Ename.
    + destruct (Hobj v eq_refl eq_refl) as [d [-> Hcmd]]. cbn [py_get bind].
      destruct (dict_get d "cmd" (JStr "")); try discriminate; cbn; eauto.
    + cbn; eauto.
  - cbn; eauto.
Qed.

(** The three ways that do work.  For a tool call with string arguments
    the renderer returns, and its detail block shows: the cmd field (empty
    when missing) of the parsed arguments on a shell-prompt line when they
    parse to an object, whose cmd is not an object itself, and the tool is
    exec_command; the parsed value pretty-printed with indent 2 when they
    parse and the tool is another one; the raw string when they do not
    parse - each of them escaped. *)
Theorem tool_call_arguments_three_way (evt name : json) (raw : string)
    (ts anchor : string) (sidebar messages : list string) :
  py_item evt "name" = Ok name ->
  py_item evt "arguments" = Ok (JStr raw) ->
  let shows args_display :=
    exists entry,
      _render_tool_call lib evt ts anchor sidebar messages =
      Ok (sidebar ++ [entry],
          messages ++ [tool_call_block lib anchor ts name args_display]) in
  (forall d, json_loads lib raw = Some (JDict d) ->
             is_dict (dict_get d "cmd" (JStr "")) = false ->
             eq_str name "exec_command" = true ->
             shows (qq "<span class='tool-command'>$ "
                    ++ Markdown.escape lib (dict_get d "cmd" (JStr ""))
                    ++ "</span>")%string) /\
  (forall v, json_loads lib raw = Some v ->
             eq_str name "exec_command" = false ->
             shows ("<pre>" ++ html_escape (json_dumps lib v (Some 2))
                    ++ "</pre>")%string) /\
  (json_loads lib raw = None ->
   shows ("<pre>" ++ html_escape raw ++ "</pre>")%string).
Proof.
  intros Hname Hraw shows. subst shows. cbv beta.
  unfold _render_tool_call. rewrite Hname; cbn [bind].
  repeat split.
  - intros d Hloads Hcmd Hexec.
    destruct (tool_call_preview_returns evt name raw Hraw) as [preview ->].
    { intros v Hv _. rewrite Hloads in Hv. injection Hv as <-. eauto. }
    cbn [bind]. unfold tool_call_display.
    rewrite Hraw; cbn [bind py_json_loads]. rewrite Hloads; cbn [bind].
    rewrite Hexec; cbn [py_get bind try_except]. eexists; reflexivity.
  - intros v Hloads Hother.
    destruct (tool_call_preview_returns evt name raw Hraw) as [preview ->].
    { intros v' _ Hexec. congruence. }
    cbn [bind]. unfold tool_call_display.
    rewrite Hraw; cbn [bind py_json_loads]. rewrite Hloads; cbn [bind].
    rewrite Hother; cbn [try_except]. rewrite escape_str.
    eexists; reflexivity.
  - intros Hloads.
    destruct (tool_call_preview_returns evt name raw Hraw) as [preview ->].
    { intros v Hv. congruence. }
    cbn [bind]. unfold tool_call_display.
    rewrite Hraw; cbn [bind py_json_loads]. rewrite Hloads.
    cbn [bind try_except decode_or_type_error]. rewrite escape_str.
    eexists; reflexivity.
Qed.

End ToolCallFacts.

Lemma tool_call_arguments_three_way_witness :
  exists entry,
    HtmlBuilder._render_tool_call sample_lib
      (tool_call "exec_command" (qq "{'cmd':'ls -la'}")) "" "msg-1" [] []
    = Ok ([entry],
          [HtmlBuilder.tool_call_block sample_lib "msg-1" "" (JStr "exec_command")
             (qq "<span class='tool-command'>$ ls -la</span>")]).
Proof.
  exact (proj1 (tool_call_arguments_three_way sample_lib
                  (tool_call "exec_command" (qq "{'cmd':'ls -la'}"))
                  (JStr "exec_command") (qq "{'cmd':'ls -la'}")
                  "" "msg-1" [] [] eq_refl eq_refl)
           [("cmd", JStr "ls -la")] eq_refl eq_refl eq_refl).
Defined.

Example tool_call_not_json :
  HtmlBuilder.tool_call_display sample_lib
    (tool_call "exec_command" "not json") (JStr "exec_command")
  = Ok "<pre>not json</pre>" /\
  HtmlBuilder.tool_call_display sample_lib
    (tool_call "exec_command" "a < b") (JStr "exec_command")
  = Ok "<pre>a &lt; b</pre>".
Proof. split; reflexivity. Qed.

Example tool_call_other_tool :
  HtmlBuilder.tool_call_display sample_lib
    (tool_call "read_file" "42") (JStr "read_file")
  = Ok "<pre>42</pre>".
Proof. reflexivity. Qed.

(** Arguments that are a JSON list, under exec_command. *)
Lemma tool_call_list_arguments_raise :
  json_loads sample_lib "[1, 2]" = Some (JList [JInt 1; JInt 2]) /\
  HtmlBuilder._render_tool_call sample_lib
    (tool_call "exec_command" "[1, 2]") "" "msg-1" [] []
  = Raise AttributeError.
Proof. split; reflexivity. Qed.

(** C8, at the arguments that break it: when the arguments of an
    exec_command call parse to a JSON value that is not an object (a list, a
    number, a string, null), the renderer does not fall back to anything: the
    [.get] on the parsed value raises AttributeError, which is not among the
    exceptions its two try blocks catch, and the exception leaves the
    renderer with no fragment written. *)
Theorem tool_call_non_object_arguments_raise (lib : PyLib) (evt name v : json)
    (raw : string) (ts anchor : string) (sidebar messages : list string) :
  py_item evt "name" = Ok name ->
  eq_str name "exec_command" = true ->
  py_item evt "arguments" = Ok (JStr raw) ->
  json_loads lib raw = Some v ->
  is_dict v = false ->
  HtmlBuilder.tool_call_preview lib evt name = Raise AttributeError /\
  HtmlBuilder.tool_call_display lib evt name = Raise AttributeError /\
  HtmlBuilder._render_tool_call lib evt ts anchor sidebar messages
  = Raise AttributeError.
Proof.
  intros Hname Hexec Hraw Hloads Hobj.
  assert (Hget : py_get v "cmd" (JStr "") = Raise AttributeError)
    by (destruct v; try discriminate; reflexivity).
  assert (Hpreview :
            HtmlBuilder.tool_call_preview lib evt name = Raise AttributeError).
  { unfold HtmlBuilder.tool_call_preview.
    rewrite Hraw; cbn [bind HtmlBuilder.py_json_loads].
    rewrite Hloads; cbn [bind]. rewrite Hexec, Hget. reflexivity. }
  split; [exact Hpreview|]. split.
  - unfold HtmlBuilder.tool_call_display.
    rewrite Hraw; cbn [bind HtmlBuilder.py_json_loads].
    rewrite Hloads; cbn [bind]. rewrite Hexec, Hget. reflexivity.
  - unfold HtmlBuilder._render_tool_call.
    rewrite Hname; cbn [bind]. now rewrite Hpreview.
Qed.

Lemma tool_call_non_object_arguments_raise_witness :
  HtmlBuilder._render_tool_call sample_lib
    (tool_call "exec_command" "[1, 2]") "" "msg-1" [] []
  = Raise AttributeError.
Proof.
  exact (proj2 (proj2 (tool_call_non_object_arguments_raise sample_lib
                         (tool_call "exec_command" "[1, 2]")
                         (JStr "exec_command") (JList [JInt 1; JInt 2])
                         "[1, 2]" "" "msg-1" [] []
                         eq_refl eq_refl eq_refl eq_refl eq_refl))).
Defined.

(** ** Escaping *)

(** C9, at a record that breaks it: the timestamp, which no parser reads as
    a date, and the num_turns field both reach the sidebar entry and the
    detail block as they are, markup included; neither goes through
    [escape]. *)
Theorem unescaped_fields_reach_markup (lib : PyLib) :
  fromisoformat lib "<img src=x>" = None ->
  Parser.extract_conversation [rollback_record] = Ok (None, [rollback_event]) /\
  exists entry block,
    HtmlBuilder.build_html_fragments lib [rollback_event]
    = Ok (1, [entry], [block]) /\
    contains "<img src=x>" entry = true /\
    contains "<script>alert(1)</script>" entry = true /\
    contains "<img src=x>" block = true /\
    contains "<script>alert(1)</script>" block = true.
Proof.
  intros Hparse. split; [reflexivity|].
  unfold HtmlBuilder.build_html_fragments.
  cbn [HtmlBuilder.build_html_loop HtmlBuilder.build_html_step].
  change (py_item rollback_event "type") with (Ok (JStr "thread_rolled_back")).
  change (py_item rollback_event "ts") with (Ok (JStr "<img src=x>")).
  cbn [bind]. rewrite format_ts_str.
  change (iso_input "<img src=x>") with "<img src=x>". rewrite Hparse.
  do 2 eexists. split; [reflexivity|].
  repeat split; vm_compute; reflexivity.
Qed.

Lemma unescaped_fields_reach_markup_witness :
  exists entry block,
    HtmlBuilder.build_html_fragments sample_lib [rollback_event]
    = Ok (1, [entry], [block]) /\
    contains "<img src=x>" entry = true /\
    contains "<script>alert(1)</script>" entry = true /\
    contains "<img src=x>" block = true /\
    contains "<script>alert(1)</script>" block = true.
Proof.
  exact (proj2 (unescaped_fields_reach_markup sample_lib eq_refl)).
Defined.

(** The sibling renderer escapes its field. *)
Example turn_aborted_reason_escaped :
  HtmlBuilder._render_turn_aborted sample_lib
    (Parser.event [("type", JStr "turn_aborted"); ("ts", JStr "");
                   ("reason", JStr "<b>")])
    "" "msg-1" [] []
  = Ok ([HtmlBuilder.tree_node "error" "msg-1" "" "⛔ Turn aborted: &lt;b&gt;"],
        [(qq "<div class='system-event error-event' id='msg-1'>"
          ++ HtmlBuilder.message_timestamp ""
          ++ qq "<span class='event-label error-text'>⛔ Turn aborted: &lt;b&gt;"
          ++ "</span></div>")%string]).
Proof. reflexivity. Qed.

(** [html_escape] leaves none of the five special characters but the
    ampersands of its own entities. *)
Lemma html_escape_clean (s : string) (a : ascii) :
  In a (list_ascii_of_string (html_escape s)) ->
  a <> "<"%char /\ a <> ">"%char /\ a <> dq /\ a <> "'"%char.
Proof.
  induction s as [|c s IH]; cbn [html_escape]; [intros []|].
  unfold escape_char.
  destruct (Ascii.eqb_spec c "&"%char) as [->|Hamp];
    [|destruct (Ascii.eqb_spec c "<"%char) as [->|Hlt];
      [|destruct (Ascii.eqb_spec c ">"%char) as [->|Hgt];
        [|destruct (Ascii.eqb_spec c dq) as [->|Hdq];
          [|destruct (Ascii.eqb_spec c "'"%char) as [->|Hsq]]]]];
    cbn [append list_ascii_of_string In];
    intros H; repeat (destruct H as [<-|H]; [repeat split; discriminate|]);
    try (now apply IH).
  destruct H as [<-|H]; [|now apply IH].
  repeat split; congruence.
Qed.

(** * Further properties of the code *)

(** ** The reader *)

Section ReaderFacts.
Variable lib : PyLib.

Lemma parse_jsonl_loop_acc (lines : list string) :
  forall entries,
    parse_jsonl_loop lib lines entries = entries ++ parse_jsonl lib lines.
Proof.
  unfold parse_jsonl.
  induction lines as [|line lines IH]; intros entries; cbn [parse_jsonl_loop].
  - now rewrite app_nil_r.
  - destruct (String.eqb (py_strip line) ""); [apply IH|].
    destruct (json_loads lib (py_strip line)) as [entry|]; [|apply IH].
    rewrite (IH (entries ++ [entry])), (IH ([] ++ [entry])).
    now rewrite <- app_assoc.
Qed.

Lemma parse_jsonl_cons (line : string) (lines : list string) :
  parse_jsonl lib (line :: lines) =
  (if String.eqb (py_strip line) "" then []
   else match json_loads lib (py_strip line) with
        | Some entry => [entry]
        | None => []
        end) ++ parse_jsonl lib lines.
Proof.
  unfold parse_jsonl at 1. cbn [parse_jsonl_loop].
  destruct (String.eqb (py_strip line) ""); [reflexivity|].
  destruct (json_loads lib (py_strip line)); [|reflexivity].
  apply parse_jsonl_loop_acc.
Qed.

Lemma parse_jsonl_concat (a b : list string) :
  parse_jsonl lib (a ++ b) = parse_jsonl lib a ++ parse_jsonl lib b.
Proof.
  induction a as [|line a IH]; [reflexivity|].
  cbn [app]. rewrite !parse_jsonl_cons, IH. now rewrite app_assoc.
Qed.

Lemma parse_jsonl_length (lines : list string) :
  List.length (parse_jsonl lib lines) <= List.length lines.
Proof.
  induction lines as [|line lines IH]; [reflexivity|].
  rewrite parse_jsonl_cons, length_app. cbn [List.length].
  destruct (String.eqb (py_strip line) ""); [cbn; lia|].
  destruct (json_loads lib (py_strip line)); cbn; lia.
Qed.

(** X1: reading is line by line: the entries of two files one after the
    other are the entries of the first followed by those of the second, and
    a file never yields more entries than it has lines. *)
Theorem parse_jsonl_line_by_line (a b : list string) :
  parse_jsonl lib (a ++ b) = parse_jsonl lib a ++ parse_jsonl lib b /\
  List.length (parse_jsonl lib (a ++ b)) <= List.length a + List.length b.
Proof.
  split; [apply parse_jsonl_concat|].
  rewrite <- length_app. apply parse_jsonl_length.
Qed.

Lemma lstrip_spaces (s : string) :
  forallb is_space (list_ascii_of_string s) = true -> lstrip s = "".
Proof.
  induction s as [|a s IH]; cbn; [reflexivity|].
  intros H. apply andb_prop in H as [Ha Hs]. rewrite Ha. now apply IH.
Qed.

(** X2: a line of white space only, and a line [json.loads] rejects once
    stripped, leave no trace: the entries are those of the file without the
    line. *)
Theorem parse_jsonl_skips (before after : list string) (line : string) :
  forallb is_space (list_ascii_of_string line) = true \/
  json_loads lib (py_strip line) = None ->
  parse_jsonl lib (before ++ line :: after) = parse_jsonl lib (before ++ after).
Proof.
  intros H. rewrite !parse_jsonl_concat, parse_jsonl_cons.
  destruct H as [H|H].
  - unfold py_strip. now rewrite (lstrip_spaces _ H).
  - rewrite H. now destruct (String.eqb (py_strip line) "").
Qed.

End ReaderFacts.

Lemma parse_jsonl_skips_witness :
  parse_jsonl sample_lib ["42"; String nl "  "; "[1, 2]"]
  = parse_jsonl sample_lib ["42"; "[1, 2]"].
Proof.
  exact (parse_jsonl_skips sample_lib ["42"] ["[1, 2]"] (String nl "  ")
           (or_introl eq_refl)).
Defined.

Example parse_jsonl_sample :
  parse_jsonl sample_lib
    [ String.append "42" (String nl ""); "not json"; "";
      String.append "  [1, 2] " (String nl "") ]
  = [JInt 42; JList [JInt 1; JInt 2]].
Proof. reflexivity. Qed.

(** ** The extractor, record by record *)

Section HandlerFacts.
Import Parser.

Lemma appends_nothing (events : list json) : Ok events = Ok (events ++ []).
Proof. now rewrite app_nil_r. Qed.

Ltac one_event := right; eexists; split; [intros events; reflexivity|].
Ltac no_event :=
  right; exists []; split; [intros events; apply appends_nothing|].

Lemma collect_blocks_frame tag mk (blocks : list json) :
  (exists e, raises_always (collect_blocks tag mk blocks) e) \/
  (exists new, appends_only (collect_blocks tag mk blocks) new /\
               Forall (fun evt => exists text, evt = mk text) new).
Proof.
  induction blocks as [|b blocks IH]; unfold raises_always, appends_only in *.
  - no_event. constructor.
  - cbn [collect_blocks].
    destruct (py_get b "type" JNull) as [btype|e]; cbn [bind];
      [|left; exists e; reflexivity].
    destruct (eq_str btype tag); [|exact IH].
    destruct (py_get b "text" (JStr "")) as [text|e]; cbn [bind];
      [|left; exists e; reflexivity].
    destruct IH as [[e He]|[new [Hnew Hmk]]].
    + left. exists e. intros events. apply He.
    + right. exists (mk text :: new). split.
      * intros events. rewrite Hnew. now rewrite <- app_assoc.
      * constructor; [now exists text|exact Hmk].
Qed.

Lemma handle_event_msg_frame (payload ts : json) :
  (exists e, raises_always (_handle_event_msg payload ts) e) \/
  (exists new, appends_only (_handle_event_msg payload ts) new /\
               List.length new <= 1 /\ Forall (has_ts ts) new).
Proof.
  unfold raises_always, appends_only.
  destruct payload as [| | | | |l|p];
    try (left; exists AttributeError; reflexivity).
  unfold _handle_event_msg; cbn [py_get bind].
  destruct (eq_str _ "user_message");
    [one_event; split; [cbn; lia|repeat constructor]|].
  destruct (eq_str _ "agent_message");
    [one_event; split; [cbn; lia|repeat constructor]|].
  destruct (eq_str _ "agent_reasoning");
    [one_event; split; [cbn; lia|repeat constructor]|].
  destruct (eq_str _ "task_complete");
    [one_event; split; [cbn; lia|repeat constructor]|].
  destruct (eq_str _ "task_started");
    [one_event; split; [cbn; lia|repeat constructor]|].
  destruct (eq_str _ "turn_aborted");
    [one_event; split; [cbn; lia|repeat constructor]|].
  destruct (eq_str _ "token_count").
  - destruct (py_get _ "total_token_usage" _) as [total|e]; cbn [bind];
      [|left; exists e; reflexivity].
    destruct (truthy total); [|no_event; split; [cbn; lia|constructor]].
    destruct (py_values total) as [vs|e]; cbn [bind];
      [|left; exists e; reflexivity].
    destruct (any_gt0 vs) as [[|]|e]; cbn [bind];
      [one_event; split; [cbn; lia|repeat constructor]
      |no_event; split; [cbn; lia|constructor]
      |left; exists e; reflexivity].
  - destruct (eq_str _ "thread_rolled_back");
      [one_event; split; [cbn; lia|repeat constructor]
      |no_event; split; [cbn; lia|constructor]].
Qed.

Lemma handle_response_item_frame (payload ts : json) :
  (exists e, raises_always (_handle_response_item payload ts) e) \/
  (exists new, appends_only (_handle_response_item payload ts) new /\
               Forall (has_ts ts) new).
Proof.
  unfold raises_always, appends_only.
  destruct payload as [| | | | |l|p];
    try (left; exists AttributeError; reflexivity).
  unfold _handle_response_item; cbn [py_get bind].
  destruct (eq_str _ "function_call"); [one_event; repeat constructor|].
  destruct (eq_str _ "function_call_output"); [one_event; repeat constructor|].
  destruct (eq_str _ "message" && eq_str _ "assistant").
  - destruct (py_iter _) as [blocks|e]; cbn [bind];
      [|left; exists e; reflexivity].
    destruct (collect_blocks_frame "output_text"
                (fun text => event [("type", JStr "assistant_text"); ("ts", ts);
                                    ("text", text);
                                    ("phase", dict_get p "phase" (JStr ""))])
                blocks) as [[e He]|[new [Hnew Hmk]]].
    + left. exists e. exact He.
    + right. exists new. split; [exact Hnew|].
      eapply Forall_impl; [|exact Hmk]. now intros evt [text ->].
  - destruct (eq_str _ "reasoning"); [|no_event; constructor].
    destruct (py_iter _) as [blocks|e]; cbn [bind];
      [|left; exists e; reflexivity].
    destruct (collect_blocks_frame "summary_text"
                (fun text => event [("type", JStr "reasoning"); ("ts", ts);
                                    ("text", text)])
                blocks) as [[e He]|[new [Hnew Hmk]]].
    + left. exists e. exact He.
    + right. exists new. split; [exact Hnew|].
      eapply Forall_impl; [|exact Hmk]. now intros evt [text ->].
Qed.

(** X3: an event_msg record adds at most one event, a response_item record
    any number, each carrying the timestamp of its record; in both cases the
    events already extracted are kept as they are, in front, and whether the
    handler raises does not depend on them. *)
Theorem handlers_append_only (payload ts : json) :
  ((exists e, raises_always (_handle_event_msg payload ts) e) \/
   (exists new, appends_only (_handle_event_msg payload ts) new /\
                List.length new <= 1 /\ Forall (has_ts ts) new)) /\
  ((exists e, raises_always (_handle_response_item payload ts) e) \/
   (exists new, appends_only (_handle_response_item payload ts) new /\
                Forall (has_ts ts) new)).
Proof.
  split; [apply handle_event_msg_frame|apply handle_response_item_frame].
Qed.

(** The whole loop, from any metadata and events. *)
Lemma extract_loop_frame (entries : list json) :
  (exists e, forall meta events, extract_loop entries meta events = Raise e) \/
  (exists m new,
      (forall meta events,
          extract_loop entries meta events = Ok (or_else m meta, events ++ new)) /\
      Forall (fun evt => exists ts, has_ts ts evt /\
                                    In ts (map timestamp_of entries)) new).
Proof.
  induction entries as [|entry entries IH].
  - right. exists None, []. split; [|constructor].
    intros meta events. cbn. now rewrite app_nil_r.
  - assert (Hweaken : forall new,
               Forall (fun evt => exists ts, has_ts ts evt /\
                                   In ts (map timestamp_of entries)) new ->
               Forall (fun evt => exists ts, has_ts ts evt /\
                                   In ts (map timestamp_of (entry :: entries)))
                      new).
    { intros new H. eapply Forall_impl; [|exact H].
      intros evt [ts [Hts Hin]]. exists ts. split; [exact Hts|now right]. }
    destruct entry as [| | | | |l|e];
      try (left; exists AttributeError; reflexivity).
    cbn [extract_loop py_get bind].
    destruct (eq_str _ "session_meta").
    { destruct IH as [[x Hx]|[m [new [Hnew Hts]]]].
      - left. exists x. intros meta events. apply Hx.
      - right.
        exists (or_else m (Some (dict_get e "payload" (JDict [])))), new.
        split; [|now apply Hweaken].
        intros meta events. rewrite Hnew. now destruct m. }
    assert (Hstep : forall f : list json -> result (list json),
               ((exists x, raises_always f x) \/
                (exists new, appends_only f new /\
                             Forall (has_ts (dict_get e "timestamp" (JStr "")))
                                    new)) ->
               (exists x, forall (meta : option json) events,
                     (events' <- f events ;; extract_loop entries meta events')
                     = Raise x) \/
               (exists m new,
                   (forall meta events,
                       (events' <- f events ;; extract_loop entries meta events')
                       = Ok (or_else m meta, events ++ new)) /\
                   Forall (fun evt => exists ts, has_ts ts evt /\
                             In ts (map timestamp_of (JDict e :: entries))) new)).
    { intros f [[x Hx]|[new1 [Hnew1 Hts1]]].
      - left. exists x. intros meta events. now rewrite Hx.
      - destruct IH as [[x Hx]|[m [new [Hnew Hts]]]].
        + left. exists x. intros meta events. rewrite Hnew1. apply Hx.
        + right. exists m, (new1 ++ new). split.
          * intros meta events. rewrite Hnew1; cbn [bind]. rewrite Hnew.
            now rewrite <- app_assoc.
          * apply Forall_app. split; [|now apply Hweaken].
            eapply Forall_impl; [|exact Hts1].
            intros evt Hevt. exists (dict_get e "timestamp" (JStr "")).
            split; [exact Hevt|now left]. }
    destruct (eq_str _ "event_msg").
    { apply Hstep.
      destruct (handle_event_msg_frame (dict_get e "payload" (JDict []))
                  (dict_get e "timestamp" (JStr "")))
        as [H|[new [H1 [_ H2]]]]; [now left|right; eauto]. }
    destruct (eq_str _ "response_item").
    { apply Hstep. apply handle_response_item_frame. }
    destruct IH as [[x Hx]|[m [new [Hnew Hts]]]].
    + left. exists x. intros meta events. apply Hx.
    + right. exists m, new. split; [exact Hnew|now apply Hweaken].
Qed.

Lemma extract_loop_app (a b : list json) :
  forall meta events,
    extract_loop (a ++ b) meta events =
    ('(meta', events') <- extract_loop a meta events ;;
     extract_loop b meta' events').
Proof.
  induction a as [|entry a IH]; intros meta events; [reflexivity|].
  cbn [app extract_loop].
  destruct (py_get entry "timestamp" (JStr "")); cbn [bind]; [|reflexivity].
  destruct (py_get entry "type" (JStr "")); cbn [bind]; [|reflexivity].
  destruct (py_get entry "payload" (JDict [])); cbn [bind]; [|reflexivity].
  destruct (eq_str _ "session_meta"); [apply IH|].
  destruct (eq_str _ "event_msg").
  { destruct (_handle_event_msg _ _ events); cbn [bind]; [apply IH|reflexivity]. }
  destruct (eq_str _ "response_item"); [|apply IH].
  destruct (_handle_response_item _ _ events); cbn [bind];
    [apply IH|reflexivity].
Qed.

(** X4: extraction goes record by record: the events of two logs one after
    the other are the events of the first followed by those of the second,
    the metadata is that of the second when it has some and that of the
    first otherwise, and a log whose beginning raises raises alike. *)
Theorem extract_conversation_concat (a b : list json) :
  (forall ma ea mb eb,
      extract_conversation a = Ok (ma, ea) ->
      extract_conversation b = Ok (mb, eb) ->
      extract_conversation (a ++ b) = Ok (or_else mb ma, ea ++ eb)) /\
  (forall e, extract_conversation a = Raise e ->
             extract_conversation (a ++ b) = Raise e).
Proof.
  unfold extract_conversation. split.
  - intros ma ea mb eb Ha Hb. rewrite extract_loop_app, Ha; cbn [bind].
    destruct (extract_loop_frame b) as [[x Hx]|[m [new [Hnew _]]]].
    + rewrite Hx in Hb. discriminate.
    + rewrite Hnew in Hb. rewrite Hnew. injection Hb as <- <-.
      cbn [or_else app]. now destruct m.
  - intros e Ha. now rewrite extract_loop_app, Ha.
Qed.

(** X5: every event of an extraction has a ts field, and the value in it is
    the timestamp of a record of the log (the empty string for a record with
    none). *)
Theorem extracted_events_keep_timestamps (entries : list json)
    (meta : option json) (events : list json) :
  extract_conversation entries = Ok (meta, events) ->
  Forall (fun evt => exists ts, has_ts ts evt /\
                                In ts (map timestamp_of entries)) events.
Proof.
  unfold extract_conversation.
  destruct (extract_loop_frame entries) as [[x Hx]|[m [new [Hnew Hts]]]].
  - rewrite Hx. discriminate.
  - rewrite Hnew. intros H. injection H as _ <-. exact Hts.
Qed.

(** X6: a reasoning item whose summary is a list of objects yields one
    Reasoning event per summary_text entry, in order, with the text of the
    entry (empty when missing) and the timestamp of the record; the other
    entries yield nothing. *)
Theorem reasoning_summary_fans_out (p : dict) (blocks : list json)
    (ts : json) (events : list json) :
  dict_get p "type" (JStr "") = JStr "reasoning" ->
  dict_get p "summary" (JList []) = JList blocks ->
  forallb is_dict blocks = true ->
  _handle_response_item (JDict p) ts events =
  Ok (events ++
      map (fun b => reasoning_event ts (block_text b))
          (filter (has_type "summary_text") blocks)).
Proof.
  intros Htype Hsummary Hblocks.
  unfold _handle_response_item; cbn [py_get bind].
  rewrite Htype; decide_tags.
  rewrite Hsummary; cbn [py_iter bind].
  now rewrite (collect_blocks_objects _ _ _ Hblocks).
Qed.

Lemma ignored_record_skipped (entry : json) (rest : list json) :
  ignored_record entry = true ->
  forall meta events,
    extract_loop (entry :: rest) meta events = extract_loop rest meta events.
Proof.
  destruct entry as [| | | | |l|e]; try discriminate.
  unfold ignored_record; cbn [extract_loop py_get bind].
  intros H meta events.
  destruct (eq_str _ "session_meta"); [discriminate|].
  destruct (eq_str _ "event_msg").
  - destruct (dict_get e "payload" (JDict [])) as [| | | | |l|p];
      try discriminate.
    apply negb_true_iff in H. cbn [is_one_of event_msg_types existsb] in H.
    repeat (apply orb_false_elim in H as [? H]).
    unfold _handle_event_msg; cbn [py_get bind].
    repeat match goal with
           | Hf : eq_str ?v ?tag = false |- context [eq_str ?v ?tag] =>
               rewrite Hf
           end.
    reflexivity.
  - destruct (eq_str _ "response_item"); [|reflexivity].
    destruct (dict_get e "payload" (JDict [])) as [| | | | |l|p];
      try discriminate.
    apply andb_prop in H as [H Hrole].
    apply negb_true_iff in H, Hrole. cbn [is_one_of existsb] in H.
    repeat (apply orb_false_elim in H as [? H]).
    unfold _handle_response_item; cbn [py_get bind].
    repeat match goal with
           | Hf : eq_str ?v ?tag = false |- context [eq_str ?v ?tag] =>
               rewrite Hf
           end.
    rewrite Hrole. reflexivity.
Qed.

(** X7: a record the extractor has no branch for changes nothing, wherever
    it stands in the log and whatever else it holds: the metadata and the
    events are those of the log without it. *)
Theorem unknown_records_are_invisible (before after : list json)
    (entry : json) :
  ignored_record entry = true ->
  extract_conversation (before ++ entry :: after)
  = extract_conversation (before ++ after).
Proof.
  intros H. unfold extract_conversation. rewrite !extract_loop_app.
  destruct (extract_loop before None []) as [[meta events]|]; cbn [bind];
    [|reflexivity].
  now apply ignored_record_skipped.
Qed.

End HandlerFacts.

Lemma extract_conversation_concat_witness :
  Parser.extract_conversation (sample_log ++ [output_only_record])
  = Ok (Some (JDict [("id", JStr "abc")]),
        [ Parser.event [("type", JStr "user_message");
                        ("ts", JStr "2024-01-01T00:00:05Z");
                        ("text", JStr ""); ("images", JList [])];
          token_count_event (JStr "") [("input_tokens", JInt 5)];
          Parser.event [("type", JStr "assistant_text"); ("ts", JStr "");
                        ("text", JStr ""); ("phase", JStr "")] ]
        ++ [output_only_event]).
Proof.
  exact (proj1 (extract_conversation_concat sample_log [output_only_record])
           _ _ _ _ eq_refl eq_refl).
Defined.

Lemma extracted_events_keep_timestamps_witness :
  Forall (fun evt => exists ts, has_ts ts evt /\
                                In ts (map timestamp_of [output_only_record]))
         [output_only_event].
Proof.
  exact (extracted_events_keep_timestamps [output_only_record] None
           [output_only_event] eq_refl).
Defined.

Lemma reasoning_summary_fans_out_witness :
  Parser._handle_response_item
    (JDict [("type", JStr "reasoning");
            ("summary",
             JList [ JDict [("type", JStr "summary_text"); ("text", JStr "plan")];
                     JDict [("type", JStr "other")];
                     JDict [("type", JStr "summary_text")] ])])
    (JStr "2024-01-01T00:00:09Z") []
  = Ok [ reasoning_event (JStr "2024-01-01T00:00:09Z") (JStr "plan");
         reasoning_event (JStr "2024-01-01T00:00:09Z") (JStr "") ].
Proof.
  exact (reasoning_summary_fans_out
           [("type", JStr "reasoning");
            ("summary",
             JList [ JDict [("type", JStr "summary_text"); ("text", JStr "plan")];
                     JDict [("type", JStr "other")];
                     JDict [("type", JStr "summary_text")] ])]
           [ JDict [("type", JStr "summary_text"); ("text", JStr "plan")];
             JDict [("type", JStr "other")];
             JDict [("type", JStr "summary_text")] ]
           (JStr "2024-01-01T00:00:09Z") []
           eq_refl eq_refl eq_refl).
Defined.

Lemma unknown_records_are_invisible_witness :
  Parser.extract_conversation
    (sample_log ++
     JDict [("type", JStr "response_item");
            ("payload", JDict [("type", JStr "message"); ("role", JStr "user");
                               ("content", JNull)])]
     :: [output_only_record])
  = Parser.extract_conversation (sample_log ++ [output_only_record]).
Proof.
  exact (unknown_records_are_invisible sample_log [output_only_record]
           (JDict [("type", JStr "response_item");
                   ("payload", JDict [("type", JStr "message");
                                      ("role", JStr "user");
                                      ("content", JNull)])])
           eq_refl).
Defined.

(** ** Timestamps and escaping *)

Section TimestampFacts.
Variable lib : PyLib.

Lemma format_ts_not_str (v : json) :
  is_str v = false ->
  Formatting.format_ts lib v = Raise AttributeError /\
  Formatting.format_ts_full lib v = Raise AttributeError.
Proof.
  destruct v; try discriminate; intros _; split; reflexivity.
Qed.

(** X8: a timestamp that is not a string is not handled: both formatters
    raise AttributeError on it, which their except clauses let through, and
    the rendering loop raises with them at an event that carries one,
    whatever the registry. *)
Theorem non_string_timestamp_raises
    (table : list (string * HtmlBuilder.handler)) (evt etype v : json)
    (st : HtmlBuilder.loop_state) :
  py_item evt "type" = Ok etype ->
  py_item evt "ts" = Ok v ->
  is_str v = false ->
  Formatting.format_ts lib v = Raise AttributeError /\
  Formatting.format_ts_full lib v = Raise AttributeError /\
  HtmlBuilder.build_html_step lib table evt st = Raise AttributeError.
Proof.
  intros Htype Hts Hv.
  destruct (format_ts_not_str v Hv) as [Hshort Hfull].
  repeat split; [exact Hshort|exact Hfull|].
  unfold HtmlBuilder.build_html_step. destruct st as [[msg_idx sidebar] messages].
  rewrite Htype, Hts; cbn [bind]. now rewrite Hshort.
Qed.

Lemma substring_length_le (n : nat) (s : string) :
  String.length (substring 0 n s) <= n.
Proof.
  revert s. induction n as [|n IH]; intros [|a s]; cbn; try lia.
  specialize (IH s). lia.
Qed.

Lemma substring_prefix (n : nat) (s : string) :
  String.prefix (substring 0 n s) s = true.
Proof.
  revert s. induction n as [|n IH]; intros [|a s]; cbn; try reflexivity.
  destruct (ascii_dec a a) as [_|Hneq]; [apply IH|now elim Hneq].
Qed.

Lemma substring_whole (n : nat) (s : string) :
  String.length s <= n -> substring 0 n s = s.
Proof.
  revert s. induction n as [|n IH]; intros [|a s]; cbn; try reflexivity;
    try lia.
  intros H. rewrite IH; [reflexivity|lia].
Qed.

(** X9: when the parse fails, what [format_ts] returns is a prefix of the
    input, at most 19 characters long, and the input itself when it is no
    longer than that. *)
Theorem format_ts_fallback_is_bounded_prefix (s : string) :
  fromisoformat lib (iso_input s) = None ->
  exists out,
    Formatting.format_ts lib (JStr s) = Ok out /\
    String.length out <= 19 /\
    String.prefix out s = true /\
    (String.length s <= 19 -> out = s).
Proof.
  intros Hparse. exists (substring 0 19 s).
  rewrite format_ts_str, Hparse.
  split; [reflexivity|].
  split; [apply substring_length_le|].
  split; [apply substring_prefix|apply substring_whole].
Qed.

Lemma escape_clean (text : json) : markup_free (Markdown.escape lib text).
Proof.
  unfold markup_free, Markdown.escape. intros a.
  destruct (truthy text); [apply html_escape_clean|intros []].
Qed.

(** X10: whatever it is given, a string or any other value, [escape]
    returns text with no angle bracket and no quote in it. *)
Theorem escape_is_markup_free (text : json) :
  markup_free (Markdown.escape lib text).
Proof.
  unfold markup_free, Markdown.escape. intros a.
  destruct (truthy text).
  - apply html_escape_clean.
  - intros [].
Qed.

End TimestampFacts.

Lemma non_string_timestamp_raises_witness :
  HtmlBuilder.build_html_step sample_lib (HtmlBuilder._EVENT_HANDLERS sample_lib)
    (Parser.event [("type", JStr "task_started"); ("ts", JInt 1704067205);
                   ("turn_id", JStr ""); ("model_context_window", JStr "")])
    (0, [], [])
  = Raise AttributeError.
Proof.
  exact (proj2 (proj2 (non_string_timestamp_raises sample_lib
                         (HtmlBuilder._EVENT_HANDLERS sample_lib)
                         (Parser.event [("type", JStr "task_started");
                                        ("ts", JInt 1704067205);
                                        ("turn_id", JStr "");
                                        ("model_context_window", JStr "")])
                         (JStr "task_started") (JInt 1704067205) (0, [], [])
                         eq_refl eq_refl eq_refl))).
Defined.

Lemma format_ts_fallback_is_bounded_prefix_witness :
  exists out,
    Formatting.format_ts sample_lib (JStr vague_timestamp) = Ok out /\
    String.length out <= 19 /\
    String.prefix out vague_timestamp = true /\
    (String.length vague_timestamp <= 19 -> out = vague_timestamp).
Proof.
  exact (format_ts_fallback_is_bounded_prefix sample_lib vague_timestamp eq_refl).
Defined.

(** *** [html.escape] loses nothing *)

Lemma escape_char_cases (c : ascii) :
  (c = "&"%char /\ escape_char c = "&amp;") \/
  (c = "<"%char /\ escape_char c = "&lt;") \/
  (c = ">"%char /\ escape_char c = "&gt;") \/
  (c = dq /\ escape_char c = "&quot;") \/
  (c = "'"%char /\ escape_char c = "&#x27;") \/
  (c <> "&"%char /\ escape_char c = String c "").
Proof.
  unfold escape_char.
  destruct (Ascii.eqb_spec c "&"%char) as [->|Hamp]; [now left|].
  destruct (Ascii.eqb_spec c "<"%char) as [->|Hlt]; [now right; left|].
  destruct (Ascii.eqb_spec c ">"%char) as [->|Hgt]; [now right; right; left|].
  destruct (Ascii.eqb_spec c dq) as [->|Hdq]; [now right; right; right; left|].
  destruct (Ascii.eqb_spec c "'"%char) as [->|Hsq];
    [now right; right; right; right; left|].
  now right; right; right; right; right.
Qed.

Lemma escape_char_head (x y : ascii) (s t : string) :
  (escape_char x ++ s = escape_char y ++ t)%string -> x = y /\ s = t.
Proof.
  destruct (escape_char_cases x)
    as [[-> ->]|[[-> ->]|[[-> ->]|[[-> ->]|[[-> ->]|[Hx ->]]]]]];
  destruct (escape_char_cases y)
    as [[-> ->]|[[-> ->]|[[-> ->]|[[-> ->]|[[-> ->]|[Hy ->]]]]]];
  cbn [append]; intros H; try discriminate H;
    try (injection H; intros; subst; now auto);
    try (injection H; intros; subst; congruence).
Qed.

Lemma html_escape_inj (s t : string) :
  html_escape s = html_escape t -> s = t.
Proof.
  revert t. induction s as [|x s IH]; intros [|y t]; cbn [html_escape].
  - reflexivity.
  - intros H. exfalso.
    destruct (escape_char_cases y)
      as [[_ E]|[[_ E]|[[_ E]|[[_ E]|[[_ E]|[_ E]]]]]];
      rewrite E in H; discriminate H.
  - intros H. exfalso.
    destruct (escape_char_cases x)
      as [[_ E]|[[_ E]|[[_ E]|[[_ E]|[[_ E]|[_ E]]]]]];
      rewrite E in H; discriminate H.
  - intros H. apply escape_char_head in H as [-> H].
    now rewrite (IH t H).
Qed.

(** X11: on strings [escape] loses nothing: two texts with the same escaped
    form are the same text. *)
Theorem escape_injective_on_strings (lib : PyLib) (s t : string) :
  Markdown.escape lib (JStr s) = Markdown.escape lib (JStr t) -> s = t.
Proof.
  rewrite !escape_str. apply html_escape_inj.
Qed.

Lemma escape_injective_on_strings_witness :
  "a < b" = "a < b".
Proof.
  exact (escape_injective_on_strings sample_lib "a < b" "a < b" eq_refl).
Defined.

(** ** The renderers *)

Section RendererFacts.
Import HtmlBuilder.
Variable lib : PyLib.

(** Peel the accesses of a renderer that returned. *)
Ltac returned H :=
  repeat match type of H with
         | bind ?m _ = Ok _ =>
             let E := fresh "E" in
             destruct m eqn:E; cbn [bind] in H; [|discriminate H]
         end.

Ltac linked role kind :=
  right; do 2 eexists; split; [reflexivity|]; split; [reflexivity|];
  exists role; eexists; exists kind; eexists; split; reflexivity.

Lemma render_user_message_linked : appends_linked (_render_user_message lib).
Proof.
  intros evt ts anchor sidebar messages sidebar' messages' H.
  unfold _render_user_message in H. returned H. injection H as <- <-.
  linked "user" "user-message".
Qed.

Lemma render_reasoning_linked : appends_linked (_render_reasoning lib).
Proof.
  intros evt ts anchor sidebar messages sidebar' messages' H.
  unfold _render_reasoning in H. returned H. injection H as <- <-.
  linked "thinking" "thinking-block".
Qed.

Lemma render_agent_commentary_linked :
  appends_linked (_render_agent_commentary lib).
Proof.
  intros evt ts anchor sidebar messages sidebar' messages' H.
  unfold _render_agent_commentary in H. returned H. injection H as <- <-.
  linked "assistant" "commentary-message".
Qed.

Lemma render_assistant_text_linked :
  appends_linked (_render_assistant_text lib).
Proof.
  intros evt ts anchor sidebar messages sidebar' messages' H.
  unfold _render_assistant_text in H. returned H. injection H as <- <-.
  linked "assistant" "assistant-message".
Qed.

Lemma render_tool_call_linked : appends_linked (_render_tool_call lib).
Proof.
  intros evt ts anchor sidebar messages sidebar' messages' H.
  unfold _render_tool_call in H. returned H. injection H as <- <-.
  unfold tool_call_block.
  linked "tool" "tool-execution pending".
Qed.

Lemma render_tool_output_linked : appends_linked (_render_tool_output lib).
Proof.
  intros evt ts anchor sidebar messages sidebar' messages' H.
  unfold _render_tool_output in H. returned H. injection H as <- <-.
  linked "tool" "tool-execution success".
Qed.

Lemma render_task_complete_linked : appends_linked (_render_task_complete lib).
Proof.
  intros evt ts anchor sidebar messages sidebar' messages' H.
  unfold _render_task_complete in H. returned H. injection H as <- <-.
  linked "assistant" "assistant-message final-answer".
Qed.

Lemma render_task_started_linked : appends_linked _render_task_started.
Proof.
  intros evt ts anchor sidebar messages sidebar' messages' H.
  unfold _render_task_started in H. injection H as <- <-.
  linked "system" "system-event".
Qed.

Lemma render_turn_aborted_linked : appends_linked (_render_turn_aborted lib).
Proof.
  intros evt ts anchor sidebar messages sidebar' messages' H.
  unfold _render_turn_aborted in H. returned H. injection H as <- <-.
  linked "error" "system-event error-event".
Qed.

Lemma render_thread_rolled_back_linked :
  appends_linked (_render_thread_rolled_back lib).
Proof.
  intros evt ts anchor sidebar messages sidebar' messages' H.
  unfold _render_thread_rolled_back in H. returned H. injection H as <- <-.
  linked "system" "system-event".
Qed.

Lemma render_token_count_linked : appends_linked (_render_token_count lib).
Proof.
  intros evt ts anchor sidebar messages sidebar' messages' H.
  unfold _render_token_count in H.
  destruct (py_item evt "total") as [total|]; cbn [bind] in H; [|discriminate H].
  destruct (py_get total "input_tokens" (JInt 0)) as [input_tokens|];
    cbn [bind] in H; [|discriminate H].
  destruct (py_le0 input_tokens) as [[|]|]; cbn [bind] in H;
    [injection H as <- <-; now left| |discriminate H].
  returned H. injection H as <- <-.
  linked "system" "token-count".
Qed.

Lemma registered_handlers_linked (kind : string) (h : handler) :
  assoc kind (_EVENT_HANDLERS lib) = Some h -> appends_linked h.
Proof.
  unfold _EVENT_HANDLERS; cbn [assoc].
  repeat match goal with
         | |- (if ?c then _ else _) = Some _ -> _ =>
             destruct c; [intros E; injection E as <-|]
         end;
    try discriminate;
    auto using render_user_message_linked, render_reasoning_linked,
      render_agent_commentary_linked, render_assistant_text_linked,
      render_tool_call_linked, render_tool_output_linked,
      render_task_complete_linked, render_task_started_linked,
      render_turn_aborted_linked, render_thread_rolled_back_linked,
      render_token_count_linked.
Qed.

End RendererFacts.

Section LoopFacts.
Import HtmlBuilder.
Variable lib : PyLib.
Variable table : list (string * handler).
Hypothesis table_linked :
  forall kind h, assoc kind table = Some h -> appends_linked h.

Lemma handlers_get_found (etype : json) (h : handler) :
  handlers_get table etype = Ok (Some h) ->
  exists kind, assoc kind table = Some h.
Proof.
  destruct etype; cbn; try discriminate.
  intros H. injection H as H. eauto.
Qed.

Lemma build_html_step_linked (evt : json) (k : nat)
    (sidebar messages : list string) (st : loop_state) :
  build_html_step lib table evt (k, sidebar, messages) = Ok st ->
  st = (S k, sidebar, messages) \/
  exists r, fst r = S k /\ linked_at r /\
            st = (S k, sidebar ++ [entry_of r], messages ++ [block_of r]).
Proof.
  unfold build_html_step.
  destruct (py_item evt "type") as [etype|]; cbn [bind]; [|discriminate].
  destruct (py_item evt "ts") as [raw_ts|]; cbn [bind]; [|discriminate].
  destruct (Formatting.format_ts lib raw_ts) as [ts|]; cbn [bind];
    [|discriminate].
  destruct (handlers_get table etype) as [[h|]|] eqn:Eget; cbn [bind];
    [| intros H; injection H as <-; now left | discriminate].
  destruct (handlers_get_found _ _ Eget) as [kind Hkind].
  destruct (h evt ts (anchor_of (S k)) sidebar messages)
    as [[sidebar' messages']|] eqn:Eh; cbn [bind]; [|discriminate].
  intros H; injection H as <-.
  destruct (table_linked kind h Hkind _ _ _ _ _ _ _ Eh)
    as [[-> ->]|[entry [block [-> [-> Hlinked]]]]]; [now left|].
  right. exists (S k, (entry, block)). split; [reflexivity|].
  split; [now exists ts|reflexivity].
Qed.

Lemma build_html_loop_linked (events : list json) :
  forall k sidebar messages n sidebar' messages',
    build_html_loop lib table events (k, sidebar, messages)
    = Ok (n, sidebar', messages') ->
    n = k + List.length events /\
    exists written : list rendered,
      sidebar' = sidebar ++ map entry_of written /\
      messages' = messages ++ map block_of written /\
      Sorted.StronglySorted lt (map fst written) /\
      Forall (fun r => k < fst r <= n /\ linked_at r) written.
Proof.
  induction events as [|evt events IH];
    intros k sidebar messages n sidebar' messages'; cbn [build_html_loop].
  - intros H; injection H as <- <- <-. split; [cbn; lia|].
    exists []. cbn. rewrite !app_nil_r. repeat split; constructor.
  - destruct (build_html_step lib table evt (k, sidebar, messages))
      as [st|] eqn:Estep; cbn [bind]; [|discriminate].
    intros Hloop.
    destruct (build_html_step_linked _ _ _ _ _ Estep)
      as [->|[r [Hpos [Hlinked ->]]]];
      destruct (IH _ _ _ _ _ _ Hloop)
        as [Hn [written [Hsb [Hmsgs [Hsorted Hall]]]]];
      (split; [cbn [List.length]; lia|]).
    + exists written. repeat split; try assumption.
      eapply Forall_impl; [|exact Hall]. intros x [Hx Hl]. split; [lia|exact Hl].
    + exists (r :: written). cbn [map].
      split; [now rewrite Hsb, <- app_assoc|].
      split; [now rewrite Hmsgs, <- app_assoc|].
      split.
      * constructor; [exact Hsorted|].
        apply Forall_map. eapply Forall_impl; [|exact Hall].
        intros x [Hx _]. lia.
      * constructor; [split; [lia|exact Hlinked]|].
        eapply Forall_impl; [|exact Hall].
        intros x [Hx Hl]. split; [lia|exact Hl].
Qed.

End LoopFacts.



Section PreviewFacts.
Import HtmlBuilder.
Variable lib : PyLib.

Lemma replace_newline_length (s : string) :
  String.length (replace_char nl " " s) = String.length s.
Proof.
  induction s as [|a s IH]; cbn [replace_char]; [reflexivity|].
  destruct (Ascii.eqb a nl); cbn [append String.length]; now rewrite IH.
Qed.

Lemma replace_newline_none (s : string) :
  ~ In nl (list_ascii_of_string (replace_char nl " " s)).
Proof.
  induction s as [|a s IH]; cbn [replace_char]; [cbn; tauto|].
  destruct (Ascii.eqb_spec a nl) as [->|Hneq];
    cbn [append list_ascii_of_string In]; intros [H|H];
    first [now apply IH | discriminate H | congruence].
Qed.

Lemma replace_newline_same (s : string) :
  ~ In nl (list_ascii_of_string s) -> replace_char nl " " s = s.
Proof.
  induction s as [|a s IH]; cbn [replace_char list_ascii_of_string In];
    [reflexivity|].
  intros H. destruct (Ascii.eqb_spec a nl) as [->|Hneq]; [tauto|].
  rewrite IH; [reflexivity|tauto].
Qed.

(** The text a preview is escaped from: the first [n] characters, every
    newline turned into a space. *)
Lemma preview_single_line (n : nat) (s : string) :
  let p := replace_char nl " " (substring 0 n s) in
  String.length p <= n /\
  ~ In nl (list_ascii_of_string p) /\
  (String.length s <= n -> ~ In nl (list_ascii_of_string s) -> p = s).
Proof.
  cbv zeta. split; [rewrite replace_newline_length; apply substring_length_le|].
  split; [apply replace_newline_none|].
  intros Hlen Hnl. rewrite (substring_whole _ _ Hlen).
  now apply replace_newline_same.
Qed.

Lemma phase_label_returns (evt : json) (text : json) :
  py_item evt "text" = Ok text ->
  exists label,
    (phase0 <- py_get evt "phase" JNull ;;
     if truthy phase0 then
       phase <- py_item evt "phase" ;; Ok (" (" ++ py_str lib phase ++ ")")%string
     else Ok "") = Ok label.
Proof.
  destruct evt as [| | | | |l|d]; try discriminate. intros _.
  cbn [py_get bind py_item]. unfold dict_get.
  destruct (lookup "phase" d) as [v|]; cbn [truthy bind]; [|eauto].
  destruct (truthy v); cbn [bind]; eauto.
Qed.

(** X13: the sidebar previews of a user message, an assistant text and a
    final answer with a string text are one line and bounded: what is
    escaped into them is at most 80, 60 and 60 characters of the text, with
    no newline left, and the text itself when it is short and on one line. *)
Theorem previews_are_single_line (evt : json) (s : string)
    (ts anchor : string) (sidebar messages : list string) :
  py_item evt "text" = Ok (JStr s) ->
  let preview n := replace_char nl " " (substring 0 n s) in
  (exists block,
      _render_user_message lib evt ts anchor sidebar messages =
      Ok (sidebar ++ [tree_node "user" anchor ts
                        ("👤 " ++ html_escape (preview 80))],
          messages ++ [block])) /\
  (exists block,
      _render_assistant_text lib evt ts anchor sidebar messages =
      Ok (sidebar ++ [tree_node "assistant" anchor ts
                        ("🤖 " ++ html_escape (preview 60))],
          messages ++ [block])) /\
  (exists block,
      _render_task_complete lib evt ts anchor sidebar messages =
      Ok (sidebar ++ [tree_node "assistant" anchor ts
                        ("✅ " ++ html_escape (preview 60))],
          messages ++ [block])) /\
  (forall n,
      String.length (preview n) <= n /\
      ~ In nl (list_ascii_of_string (preview n)) /\
      (String.length s <= n -> ~ In nl (list_ascii_of_string s) ->
       preview n = s)).
Proof.
  intros Htext preview.
  split; [|split; [|split]].
  - unfold _render_user_message. rewrite Htext; cbn [bind py_slice py_replace].
    rewrite escape_str. eexists; reflexivity.
  - unfold _render_assistant_text.
    destruct (phase_label_returns evt (JStr s) Htext) as [label Hlabel].
    destruct (py_get evt "phase" JNull) as [phase0|]; cbn [bind] in *;
      [|discriminate Hlabel].
    rewrite Hlabel; cbn [bind].
    rewrite Htext; cbn [bind py_slice py_replace].
    rewrite escape_str. eexists; reflexivity.
  - unfold _render_task_complete. rewrite Htext; cbn [bind py_slice py_replace].
    rewrite escape_str. eexists; reflexivity.
  - intros n. apply preview_single_line.
Qed.

End PreviewFacts.

Lemma previews_are_single_line_witness :
  exists block,
    HtmlBuilder._render_user_message sample_lib
      (Parser.event [("type", JStr "user_message"); ("ts", JStr "");
                     ("text", JStr (String.append "one" (String nl "two")));
                     ("images", JList [])])
      "" "msg-1" [] []
    = Ok ([HtmlBuilder.tree_node "user" "msg-1" "" "👤 one two"], [block]).
Proof.
  exact (proj1 (previews_are_single_line sample_lib
                  (Parser.event [("type", JStr "user_message"); ("ts", JStr "");
                                 ("text", JStr (String.append "one" (String nl "two")));
                                 ("images", JList [])])
                  (String.append "one" (String nl "two")) "" "msg-1" [] []
                  eq_refl)).
Defined.

Section EdgeFacts.
Import HtmlBuilder.
Variable lib : PyLib.

Lemma py_slice_not_sliceable (v : json) (n : nat) :
  not_sliceable v = true -> py_slice lib v n = Raise TypeError.
Proof. destruct v; try discriminate; reflexivity. Qed.

(** X14: an event of a text kind whose text is null, a boolean or a number
    is not rendered: with a string timestamp the loop reaches the renderer,
    which raises TypeError when it cuts the preview. *)
Theorem text_that_cannot_be_cut_raises (evt v : json) (kind raw_ts : string)
    (st : loop_state) :
  py_item evt "type" = Ok (JStr kind) ->
  In kind text_kinds ->
  py_item evt "ts" = Ok (JStr raw_ts) ->
  py_item evt "text" = Ok v ->
  not_sliceable v = true ->
  build_html_step lib (_EVENT_HANDLERS lib) evt st = Raise TypeError.
Proof.
  intros Htype Hkind Hts Htext Hv.
  destruct st as [[msg_idx sidebar] messages].
  unfold build_html_step. rewrite Htype, Hts; cbn [bind].
  rewrite format_ts_str; cbn [bind].
  destruct (phase_label_returns lib evt v Htext) as [label Hlabel].
  cbn [text_kinds In] in Hkind.
  destruct Hkind as [<-|[<-|[<-|[<-|[<-|[]]]]]];
    cbn [handlers_get assoc _EVENT_HANDLERS String.eqb Ascii.eqb Bool.eqb bind];
    unfold _render_user_message, _render_reasoning, _render_agent_commentary,
      _render_assistant_text, _render_task_complete;
    try (rewrite Htext; cbn [bind];
         rewrite (py_slice_not_sliceable v _ Hv); reflexivity).
  destruct (py_get evt "phase" JNull) as [phase0|]; cbn [bind] in *;
    [|discriminate Hlabel].
  rewrite Hlabel; cbn [bind]. rewrite Htext; cbn [bind].
  rewrite (py_slice_not_sliceable v _ Hv). reflexivity.
Qed.

(** X15: [_render_tool_output] returns on exactly the outputs that are a
    string or a list, with one link and one block; on an object it raises
    what slicing a dict raises, on null, a boolean or a number TypeError. *)
Theorem tool_output_renders_strings_and_lists (evt output : json)
    (ts anchor : string) (sidebar messages : list string) :
  py_item evt "output" = Ok output ->
  match output with
  | JStr _ | JList _ =>
      exists entry block,
        _render_tool_output lib evt ts anchor sidebar messages
        = Ok (sidebar ++ [entry], messages ++ [block])
  | JDict _ =>
      _render_tool_output lib evt ts anchor sidebar messages
      = Raise (dict_slice_error lib)
  | _ =>
      _render_tool_output lib evt ts anchor sidebar messages = Raise TypeError
  end.
Proof.
  intros Houtput. unfold _render_tool_output. rewrite Houtput; cbn [bind].
  destruct output; cbn [py_len py_slice bind]; try reflexivity;
    do 2 eexists; reflexivity.
Qed.

Lemma dict_get_number (total : dict) (k : string) :
  forallb is_number (map snd total) = true ->
  is_number (dict_get total k (JInt 0)) = true.
Proof.
  unfold dict_get.
  induction total as [|[k' v] total IH]; cbn; [reflexivity|].
  intros H. apply andb_prop in H as [Hv Htotal].
  destruct (String.eqb k k'); [exact Hv|now apply IH].
Qed.

Lemma format_comma_number (v : json) :
  is_number v = true -> exists s, format_comma lib v = Ok s.
Proof. destruct v; try discriminate; cbn; eauto. Qed.

(** X16: a TokenCount event over a map of numbers is rendered without
    raising, whichever of the three counts are missing. *)
Theorem token_count_of_numbers_renders (evt : json) (total : dict)
    (ts anchor : string) (sidebar messages : list string) :
  py_item evt "total" = Ok (JDict total) ->
  forallb is_number (map snd total) = true ->
  exists out, _render_token_count lib evt ts anchor sidebar messages = Ok out.
Proof.
  intros Htotal Hnum. unfold _render_token_count.
  rewrite Htotal; cbn [bind py_get].
  pose proof (dict_get_number total "input_tokens" Hnum) as Hin.
  pose proof (dict_get_number total "output_tokens" Hnum) as Hout.
  pose proof (dict_get_number total "reasoning_output_tokens" Hnum) as Hre.
  destruct (format_comma_number _ Hin) as [s_in Es_in].
  destruct (format_comma_number _ Hout) as [s_out Es_out].
  destruct (format_comma_number _ Hre) as [s_re Es_re].
  assert (Hle : exists b, py_le0 (dict_get total "input_tokens" (JInt 0)) = Ok b)
    by (destruct (dict_get total "input_tokens" (JInt 0));
        try discriminate; cbn; eauto).
  destruct Hle as [b ->]; cbn [bind].
  destruct b; [eauto|].
  rewrite Es_in, Es_out, Es_re; cbn [bind]. eauto.
Qed.

End EdgeFacts.

Lemma text_that_cannot_be_cut_raises_witness :
  Parser.extract_conversation [null_answer_record]
  = Ok (None, [null_answer_event]) /\
  HtmlBuilder.build_html_step sample_lib (HtmlBuilder._EVENT_HANDLERS sample_lib)
    null_answer_event (0, [], [])
  = Raise TypeError.
Proof.
  split; [reflexivity|].
  apply (text_that_cannot_be_cut_raises sample_lib null_answer_event
           JNull "task_complete" "2024-01-01T00:00:09Z" (0, [], [])
           eq_refl).
  - cbn. tauto.
  - reflexivity.
  - reflexivity.
  - reflexivity.
Defined.

Lemma tool_output_renders_strings_and_lists_witness :
  HtmlBuilder._render_tool_output sample_lib
    (Parser.event [("type", JStr "tool_output"); ("ts", JStr "");
                   ("call_id", JStr "c1");
                   ("output", JDict [("content", JStr "ok")])])
    "" "msg-1" [] []
  = Raise TypeError.
Proof.
  exact (tool_output_renders_strings_and_lists sample_lib
           (Parser.event [("type", JStr "tool_output"); ("ts", JStr "");
                          ("call_id", JStr "c1");
                          ("output", JDict [("content", JStr "ok")])])
           (JDict [("content", JStr "ok")]) "" "msg-1" [] [] eq_refl).
Defined.

Lemma token_count_of_numbers_renders_witness :
  exists out,
    HtmlBuilder._render_token_count sample_lib
      (token_count_event (JStr "") [("input_tokens", JInt 1234)])
      "" "msg-1" [] []
    = Ok out.
Proof.
  exact (token_count_of_numbers_renders sample_lib
           (token_count_event (JStr "") [("input_tokens", JInt 1234)])
           [("input_tokens", JInt 1234)] "" "msg-1" [] [] eq_refl eq_refl).
Defined.

(** ** The header of the page *)

Section HeaderFacts.
Import HtmlHeader.
Variable lib : PyLib.

(** X17: with no metadata, or metadata that is empty, the header is made of
    the defaults: the session id reads unknown, the git line and the other
    fields are empty, and nothing is raised. *)
Theorem header_without_metadata (meta : option json) :
  has_meta meta = false ->
  fromisoformat lib "" = None ->
  build_html_header lib meta =
  Ok {| title := "unknown"; session_id_short := "unknown";
        session_ts_short := ""; session_id := "unknown"; session_ts := "";
        model := ""; cli_version := ""; cwd := ""; git_info := "" |}.
Proof.
  intros Hmeta Hparse. unfold build_html_header, meta_get, meta_git.
  rewrite Hmeta.
  assert (Hts : Formatting.format_ts_full lib (JStr "") = Ok "")
    by (rewrite format_ts_full_str; cbn [iso_input replace_char];
        now rewrite Hparse).
  destruct meta as [m|]; cbn [has_meta] in Hmeta;
    [rewrite Hmeta|]; cbn [bind py_slice]; rewrite Hts; reflexivity.
Qed.

Lemma markup_free_app (s t : string) :
  markup_free s -> markup_free t -> markup_free (s ++ t).
Proof.
  unfold markup_free. intros Hs Ht a.
  induction s as [|c s IH]; cbn [append list_ascii_of_string In].
  - apply Ht.
  - intros [<-|H]; [apply Hs; now left|].
    apply IH; [|exact H]. intros b Hb. apply Hs. now right.
Qed.

Lemma markup_free_at : markup_free " @ ".
Proof.
  intros a H. cbn in H.
  repeat (destruct H as [<-|H]; [repeat split; discriminate|]).
  destruct H.
Qed.

Lemma markup_free_empty : markup_free "".
Proof. intros a []. Qed.

(** X18: every value the header hands to the template went through
    [escape]: whatever the metadata holds, none of them has an angle bracket
    or a quote in it. *)
Theorem header_is_markup_free (meta : option json) (h : header) :
  build_html_header lib meta = Ok h ->
  markup_free (title h) /\ markup_free (session_id_short h) /\
  markup_free (session_ts_short h) /\ markup_free (session_id h) /\
  markup_free (session_ts h) /\ markup_free (model h) /\
  markup_free (cli_version h) /\ markup_free (cwd h) /\
  markup_free (git_info h).
Proof.
  unfold build_html_header. intros H.
  repeat match type of H with
         | bind ?m _ = Ok _ =>
             let E := fresh "E" in
             destruct m eqn:E; cbn [bind] in H; [|discriminate H]
         end.
  injection H as <-.
  cbn [title session_id_short session_ts_short session_id session_ts model
       cli_version cwd git_info].
  do 8 (split; [apply escape_clean|]).
  apply markup_free_app; [apply escape_clean|].
  destruct (truthy _); [|apply markup_free_empty].
  match goal with
  | |- markup_free (String _ (String _ (String _ ?x))) =>
      change (markup_free (" @ " ++ x))
  end.
  apply markup_free_app; [apply markup_free_at|apply escape_clean].
Qed.

(** X19: metadata whose git entry is there but is not an object, null for
    one, is not tolerated: reading the branch off it raises
    AttributeError. *)
Theorem header_git_must_be_object (m : dict) (git : json) :
  m <> [] ->
  lookup "git" m = Some git ->
  is_dict git = false ->
  build_html_header lib (Some (JDict m)) = Raise AttributeError.
Proof.
  intros Hm Hgit Hobj. unfold build_html_header, meta_get, meta_git.
  assert (Htruthy : truthy (JDict m) = true) by (destruct m; [now elim Hm|reflexivity]).
  assert (Hget : dict_get m "git" (JDict []) = git)
    by (unfold dict_get; now rewrite Hgit).
  rewrite Htruthy; cbn [py_get bind]. rewrite Hget.
  destruct git; try discriminate; reflexivity.
Qed.

End HeaderFacts.

Lemma header_without_metadata_witness :
  HtmlHeader.build_html_header sample_lib None =
  Ok {| HtmlHeader.title := "unknown"; HtmlHeader.session_id_short := "unknown";
        HtmlHeader.session_ts_short := ""; HtmlHeader.session_id := "unknown";
        HtmlHeader.session_ts := ""; HtmlHeader.model := "";
        HtmlHeader.cli_version := ""; HtmlHeader.cwd := "";
        HtmlHeader.git_info := "" |}.
Proof.
  exact (header_without_metadata sample_lib None eq_refl eq_refl).
Defined.

Lemma header_git_must_be_object_witness :
  HtmlHeader.build_html_header sample_lib
    (Some (JDict [("id", JStr "abc"); ("git", JNull)]))
  = Raise AttributeError.
Proof.
  apply (header_git_must_be_object sample_lib
           [("id", JStr "abc"); ("git", JNull)] JNull).
  - discriminate.
  - reflexivity.
  - reflexivity.
Defined.

Example header_sample :
  HtmlHeader.build_html_header sample_lib (Some sample_meta) = Ok sample_header.
Proof. reflexivity. Qed.

Lemma header_is_markup_free_witness :
  markup_free (HtmlHeader.title sample_header) /\
  markup_free (HtmlHeader.session_id_short sample_header) /\
  markup_free (HtmlHeader.session_ts_short sample_header) /\
  markup_free (HtmlHeader.session_id sample_header) /\
  markup_free (HtmlHeader.session_ts sample_header) /\
  markup_free (HtmlHeader.model sample_header) /\
  markup_free (HtmlHeader.cli_version sample_header) /\
  markup_free (HtmlHeader.cwd sample_header) /\
  markup_free (HtmlHeader.git_info sample_header).
Proof.
  exact (header_is_markup_free sample_lib (Some sample_meta) sample_header
           eq_refl).
Defined.
